(** * CreateLambda.py: provisioning and teardown of three CloudFormation stacks

    A shallow embedding of [src/CreateLambda.py].  The script talks to AWS
    through boto3 clients; here every SDK call is a request to a provider
    that owns a state of type [World] and answers with a value or with a
    Python exception.  The script itself is written in a small monad that
    threads the provider state, propagates exceptions and records every
    request and every printed line in chronological order. *)

From Stdlib Require Import String Ascii List ZArith Bool Lia DecimalString.
Import ListNotations.
Local Open Scope string_scope.
Local Open Scope Z_scope.

(** ** The fragment of Python the script relies on *)

Module Py.

(** Exceptions that reach the script.  [ClientError] carries
    [e.response['Error']['Code']] and [e.response['Error']['Message']]. *)
Inductive PyExc : Type :=
| ClientError (Code Message : string)
| WaiterError (reason : string)
| TypeError (msg : string)
| KeyError (key : string)
| IndexError (msg : string)
| ValueError (msg : string)
| OtherException (cls msg : string).

Definition exc_class (e : PyExc) : string :=
  match e with
  | ClientError _ _ => "ClientError"
  | WaiterError _ => "WaiterError"
  | TypeError _ => "TypeError"
  | KeyError _ => "KeyError"
  | IndexError _ => "IndexError"
  | ValueError _ => "ValueError"
  | OtherException cls _ => cls
  end.

(** [str(e)]; for a [ClientError] botocore also names the operation, which
    no path of the script ever prints. *)
Definition exc_str (e : PyExc) : string :=
  match e with
  | ClientError code msg =>
      "An error occurred (" ++ code ++ "): " ++ msg
  | WaiterError reason => "Waiter failed: " ++ reason
  | TypeError msg | IndexError msg | ValueError msg => msg
  | KeyError key => "'" ++ key ++ "'"
  | OtherException _ msg => msg
  end.

(** The two kinds of object the script hands to [+] and to [print]. *)
Inductive PyVal : Type :=
| VStr (s : string)
| VExc (e : PyExc).

Definition py_str (v : PyVal) : string :=
  match v with
  | VStr s => s
  | VExc e => exc_str e
  end.

(** A value or a raised exception. *)
Inductive Outcome (A : Type) : Type :=
| Returned (a : A)
| Raised (e : PyExc).
Arguments Returned {A} a.
Arguments Raised {A} e.

(** Binary [+].  [str.__add__] accepts a [str] only, and exception classes
    define neither [__add__] nor [__radd__], so every mixed sum raises
    [TypeError] (the wording is that of CPython 3.6, the interpreter named
    in the script's first line). *)
Definition py_add (a b : PyVal) : Outcome PyVal :=
  match a, b with
  | VStr x, VStr y => Returned (VStr (x ++ y))
  | VStr _, VExc e => Raised (TypeError ("must be str, not " ++ exc_class e))
  | VExc e, VStr _ =>
      Raised (TypeError ("unsupported operand type(s) for +: '"
                         ++ exc_class e ++ "' and 'str'"))
  | VExc e, VExc e' =>
      Raised (TypeError ("unsupported operand type(s) for +: '"
                         ++ exc_class e ++ "' and '" ++ exc_class e' ++ "'"))
  end.

Fixpoint lookup_kw (name : string) (kw : list (string * string)) : option string :=
  match kw with
  | [] => None
  | (k, v) :: kw' => if String.eqb k name then Some v else lookup_kw name kw'
  end.

Definition open_brace : ascii := "{"%char.
Definition close_brace : ascii := "}"%char.

(** [str.format] for the replacement fields the script uses: [{name}],
    filled from the keyword arguments, and [{}], filled from the positional
    arguments in order.  [field] is [Some acc] while the scan is between a
    [{] and its [}].  Doubled braces and format specifications do not occur
    in the script's strings and are rejected. *)
Fixpoint format_scan (s : string) (field : option string)
         (args : list string) (kw : list (string * string)) : Outcome string :=
  match s with
  | EmptyString =>
      match field with
      | None => Returned EmptyString
      | Some _ => Raised (ValueError "expected '}' before end of string")
      end
  | String c rest =>
      match field with
      | None =>
          if Ascii.eqb c open_brace then format_scan rest (Some EmptyString) args kw
          else if Ascii.eqb c close_brace
               then Raised (ValueError "Single '}' encountered in format string")
               else match format_scan rest None args kw with
                    | Returned t => Returned (String c t)
                    | Raised e => Raised e
                    end
      | Some name =>
          if Ascii.eqb c close_brace then
            match name with
            | EmptyString =>
                match args with
                | [] => Raised (IndexError "tuple index out of range")
                | a :: args' =>
                    match format_scan rest None args' kw with
                    | Returned t => Returned (a ++ t)
                    | Raised e => Raised e
                    end
                end
            | _ =>
                match lookup_kw name kw with
                | None => Raised (KeyError name)
                | Some v =>
                    match format_scan rest None args kw with
                    | Returned t => Returned (v ++ t)
                    | Raised e => Raised e
                    end
                end
            end
          else if Ascii.eqb c open_brace
               then Raised (ValueError "unexpected '{' in field name")
               else format_scan rest (Some (name ++ String c EmptyString)) args kw
      end
  end.

Definition str_format (s : string) (args : list string)
           (kw : list (string * string)) : Outcome string :=
  format_scan s None args kw.

(** [print(a, b, ...)]: the arguments' [str], separated by one space. *)
Definition print_line (args : list PyVal) : string :=
  String.concat " " (map py_str args).

(** Truth value of an integer, as [if n:] and [a or b] test it. *)
Definition truthy (n : Z) : bool := negb (n =? 0).

End Py.
Export Py.

(** ** Constants and global variables (lines 38-86) *)

Definition nl : string := String "010"%char EmptyString.
Definition dq : string := String "034"%char EmptyString.

Definition VERSION : string := "v0.21".

Definition CF_STACKNAME_LAMBDA : string := "LambdaFunction".
Definition CF_STACKNAME_LAMBDA_S3 : string := "LambdaS3Bucket".
Definition CF_STACKNAME_BOOTSTRAP_S3 : string := "BootstrapS3Bucket".

Definition CF_LAMBDA_S3_BUCKET_NAME : string := "generic-lambda-functions-01234".
Definition CF_BOOTSTRAP_S3_BUCKET_NAME : string := "generic-bootstrap-bucket-01234".

Definition CF_LAMBDA_SOURCE : string := "test.zip".

Definition CF_TEMPLATE_S3 : string := "CreateS3Bucket.yaml".
Definition CF_TEMPLATE_LAMBDA : string := "CreateLambdaFunction.yaml".

Definition CF_TEMPLATE_BOOTSTRAP_S3 : string :=
  Eval cbv in
    String.concat nl
      [ "---";
        "Resources:";
        "  DocS3BootstrapBucket:";
        "    Type: AWS::S3::Bucket";
        "    Properties:";
        "      BucketName: {bucketName}";
        "      Tags:";
        "        - Key: " ++ dq ++ "Documentation" ++ dq;
        "          Value: " ++ dq ++ "Documentation" ++ dq;
        "";
        "  # Allow CF templates to perform all S3 operations on this bucket";
        "  DocBucketAccessPolicy:";
        "    Type: AWS::S3::BucketPolicy";
        "    Properties:";
        "      Bucket:";
        "        Ref: " ++ dq ++ "DocS3BootstrapBucket" ++ dq;
        "      PolicyDocument:";
        "        Statement:";
        "          - Action: " ++ dq ++ "*" ++ dq;
        "            Effect: " ++ dq ++ "Allow" ++ dq;
        "            Resource:";
        "              Fn::Join:";
        "              - " ++ dq ++ dq;
        "              - - " ++ dq ++ "arn:aws:s3:::" ++ dq;
        "                - Ref: " ++ dq ++ "DocS3BootstrapBucket" ++ dq;
        "                - " ++ dq ++ "/*" ++ dq;
        "            Principal:";
        "              Service:";
        "              - cloudformation.amazonaws.com";
        "" ].


Local Open Scope list_scope.

(** ** Requests to the provider

    One constructor per boto3 method the script calls; the index is the type
    of the part of the response the script reads. *)

Inductive TemplateSource : Type :=
| TemplateBody (body : string)
| TemplateURL (url : string).

Record WaiterConfig : Type := { Delay : Z; MaxAttempts : Z }.

(** A boto3 client, as returned by [aws.client(service)]. *)
Record Client : Type := { service_name : string }.

(** A waiter, as returned by [client.get_waiter(name)]. *)
Record Waiter : Type := { waiter_name : string }.

(** An entry of [Contents] in a [list_objects_v2] response. *)
Record S3Object : Type := { obj_Key : string; obj_Size : Z }.

(** The two fields of a [list_objects_v2] response the script reads;
    [Contents = None] is a response dict without that key. *)
Record ListObjectsV2Output : Type :=
  { KeyCount : Z; Contents : option (list S3Object) }.

Inductive Call : Type -> Type :=
| AwsClient (service : string) : Call Client
| CreateStack (StackName : string) (Template : TemplateSource)
              (Capabilities : option (list string)) : Call unit
| WaiterWait (waiter : string) (StackName : string) (cfg : WaiterConfig) : Call unit
| UploadFile (Filename Bucket Key : string) : Call unit
| DeleteStack (StackName : string) : Call unit
| ListObjectsV2 (Bucket : string) : Call ListObjectsV2Output
| DeleteObjects (Bucket : string) (Keys : list string) : Call unit
| DescribeStackResources (StackName : string) : Call unit
| DescribeStackResource (StackName LogicalResourceId : string) : Call string
| GetRestApi (restApiId : string) : Call unit
| GetMethod (restApiId resourceId httpMethod : string) : Call unit
| GetResource (restApiId resourceId : string) (embed : list string) : Call unit
| GetDeployment (restApiId deploymentId : string) (embed : list string) : Call unit
| GetStages (restApiId deploymentId : string) : Call (list string)
| GetStage (restApiId stageName : string) : Call unit.

(** The keys a listing response names. *)
Definition listed_keys (r : ListObjectsV2Output) : list string :=
  match Contents r with
  | Some objs => map obj_Key objs
  | None => []
  end.

(** The only request that puts an object into a bucket. *)
Definition is_upload {R} (c : Call R) : bool :=
  match c with
  | UploadFile _ _ _ => true
  | _ => false
  end.

(** How a run ends: [exit(code)], or a traceback for an uncaught exception. *)
Inductive ProcessEnd : Type :=
| Exit (code : Z)
| Traceback (e : PyExc).

(** The status the parent process sees: the low eight bits of the argument
    of [exit], and 1 after a traceback. *)
Definition exit_status (p : ProcessEnd) : Z :=
  match p with
  | Exit code => code mod 256
  | Traceback _ => 1
  end.

(** ** The script *)

Section Script.

Variable World : Type.

(** The provider: the response to a request and the state it leaves. *)
Variable provider : forall R : Type, Call R -> World -> Outcome R * World.

(** What an observer of the run sees, in order: a request with the provider
    state it was issued in and its outcome, or a line on standard output. *)
Inductive Event : Type :=
| Called (R : Type) (before : World) (c : Call R) (o : Outcome R)
| Printed (line : string).

Definition Log : Type := list Event.

(** State (the provider's), exceptions and the log of what the computation
    did. *)
Definition M (A : Type) : Type := World -> Outcome A * World * Log.

Definition ret {A} (a : A) : M A := fun w => (Returned a, w, []).

Definition raise {A} (e : PyExc) : M A := fun w => (Raised e, w, []).

Definition bind {A B} (m : M A) (f : A -> M B) : M B :=
  fun w =>
    match m w with
    | (Returned a, w1, l1) =>
        match f a w1 with
        | (o, w2, l2) => (o, w2, l1 ++ l2)
        end
    | (Raised e, w1, l1) => (Raised e, w1, l1)
    end.

Definition lift {A} (o : Outcome A) : M A :=
  match o with
  | Returned a => ret a
  | Raised e => raise e
  end.

Definition perform {R} (c : Call R) : M R :=
  fun w =>
    match provider R c w with
    | (o, w') => (o, w', [Called R w c o])
    end.

Definition print (args : list PyVal) : M unit :=
  fun w => (Returned tt, w, [Printed (print_line args)]).

(** [try: body  except <class> as e: handler].  [handler e] is [None] when
    [e] is not an instance of the class the clause names; the exception then
    propagates.  An exception raised by the handler propagates too. *)
Definition try_except {A} (body : M A) (handler : PyExc -> option (M A)) : M A :=
  fun w =>
    match body w with
    | (Returned a, w1, l1) => (Returned a, w1, l1)
    | (Raised e, w1, l1) =>
        match handler e with
        | Some h =>
            match h w1 with
            | (o, w2, l2) => (o, w2, l1 ++ l2)
            end
        | None => (Raised e, w1, l1)
        end
    end.

Definition except_ClientError {A} (h : PyExc -> string -> string -> M A)
  : PyExc -> option (M A) :=
  fun e => match e with
           | ClientError code message => Some (h e code message)
           | _ => None
           end.

Definition except_WaiterError {A} (h : PyExc -> M A) : PyExc -> option (M A) :=
  fun e => match e with
           | WaiterError _ => Some (h e)
           | _ => None
           end.

(** A statement of a function body either executes [return v] or falls
    through to the next statement with the names it bound. *)
Inductive Flow (X : Type) : Type :=
| Return_ (v : Z)
| Next (x : X).
Arguments Return_ {X} v.
Arguments Next {X} x.

Definition and_then {X} (stmt : M (Flow X)) (rest : X -> M Z) : M Z :=
  bind stmt (fun f => match f with
                      | Return_ v => ret v
                      | Next x => rest x
                      end).

Notation "x <- m ;; k" := (bind m (fun x => k))
  (at level 100, m at next level, right associativity).
Notation "m ;; k" := (bind m (fun _ => k))
  (at level 100, right associativity).
Notation "x <~ stmt ;; k" := (and_then stmt (fun x => k))
  (at level 100, stmt at next level, right associativity).

Definition format (s : string) (args : list string) (kw : list (string * string))
  : M string :=
  lift (str_format s args kw).

Definition add (a b : PyVal) : M PyVal := lift (py_add a b).

Definition get_waiter (cf : Client) (name : string) : M Waiter :=
  ret {| waiter_name := name |}.

Definition wait (w : Waiter) (StackName : string) (cfg : WaiterConfig) : M unit :=
  perform (WaiterWait (waiter_name w) StackName cfg).

(** [print('ERROR: ' + x)] *)
Definition print_error (x : PyVal) : M unit :=
  s <- add (VStr "ERROR: ") x ;;
  print [s].

(** Lines 113-120, 153-160 and 212-219: the handler of a failed
    [create_stack]. *)
Definition create_stack_failed {X} : PyExc -> option (M (Flow X)) :=
  except_ClientError (fun e code message =>
    (if String.eqb code "AlreadyExistsException"
     then print_error (VStr message)
     else print_error (VExc e)) ;;
    ret (Return_ (-1))).

(** Lines 105-183. *)
Definition create_s3_bucket : M Z :=
  line <- format "Creating CloudFormation stack: {stack}, S3 bucket: {bucket}..." []
            [("stack", CF_STACKNAME_BOOTSTRAP_S3);
             ("bucket", CF_BOOTSTRAP_S3_BUCKET_NAME)] ;;
  print [VStr line] ;;
  cf <~ try_except
          (cf <- perform (AwsClient "cloudformation") ;;
           body <- format CF_TEMPLATE_BOOTSTRAP_S3 []
                     [("bucketName", CF_BOOTSTRAP_S3_BUCKET_NAME)] ;;
           perform (CreateStack CF_STACKNAME_BOOTSTRAP_S3 (TemplateBody body) None) ;;
           ret (Next cf))
          create_stack_failed ;;
  waiter <~ try_except
          (waiter <- get_waiter cf "stack_create_complete" ;;
           wait waiter CF_STACKNAME_BOOTSTRAP_S3 {| Delay := 5; MaxAttempts := 12 |} ;;
           ret (Next waiter))
          (except_WaiterError (fun e =>
             print_error (VExc e) ;;
             ret (Return_ (-1)))) ;;
  line <- format "Uploading {template} to {bucket} bucket..." []
            [("template", CF_TEMPLATE_S3); ("bucket", CF_BOOTSTRAP_S3_BUCKET_NAME)] ;;
  print [VStr line] ;;
  s3 <~ try_except
          (s3 <- perform (AwsClient "s3") ;;
           perform (UploadFile CF_TEMPLATE_S3 CF_BOOTSTRAP_S3_BUCKET_NAME CF_TEMPLATE_S3) ;;
           ret (Next s3))
          (except_ClientError (fun e _ _ =>
             print_error (VExc e) ;;
             ret (Return_ (-1)))) ;;
  line <- format "Creating CloudFormation stack: {stack}, S3 bucket: {bucket}..." []
            [("stack", CF_STACKNAME_LAMBDA_S3); ("bucket", CF_LAMBDA_S3_BUCKET_NAME)] ;;
  print [VStr line] ;;
  _ <~ try_except
          (url <- format "https://s3.amazonaws.com/{bucket}/{template}" []
                    [("bucket", CF_BOOTSTRAP_S3_BUCKET_NAME);
                     ("template", CF_TEMPLATE_S3)] ;;
           perform (CreateStack CF_STACKNAME_LAMBDA_S3 (TemplateURL url) None) ;;
           ret (Next tt))
          create_stack_failed ;;
  _ <~ try_except
          (wait waiter CF_STACKNAME_LAMBDA_S3 {| Delay := 5; MaxAttempts := 12 |} ;;
           ret (Next tt))
          (except_WaiterError (fun e =>
             print_error (VExc e) ;;
             ret (Return_ (-1)))) ;;
  line <- format "Uploading {template} to {bucket} bucket..." []
            [("template", CF_TEMPLATE_LAMBDA); ("bucket", CF_LAMBDA_S3_BUCKET_NAME)] ;;
  print [VStr line] ;;
  _ <~ try_except
          (perform (UploadFile CF_TEMPLATE_LAMBDA CF_LAMBDA_S3_BUCKET_NAME
                               CF_TEMPLATE_LAMBDA) ;;
           ret (Next tt))
          (except_ClientError (fun e _ _ =>
             print_error (VExc e) ;;
             ret (Return_ (-1)))) ;;
  ret 0.

(** Lines 192-233. *)
Definition create_lambda : M Z :=
  line <- format "Uploading {source} to {bucket} bucket..." []
            [("source", CF_LAMBDA_SOURCE); ("bucket", CF_LAMBDA_S3_BUCKET_NAME)] ;;
  print [VStr line] ;;
  _ <~ try_except
          (s3 <- perform (AwsClient "s3") ;;
           perform (UploadFile CF_LAMBDA_SOURCE CF_LAMBDA_S3_BUCKET_NAME
                               CF_LAMBDA_SOURCE) ;;
           ret (Next s3))
          (except_ClientError (fun e _ _ =>
             print_error (VExc e) ;;
             ret (Return_ (-1)))) ;;
  line <- format "Creating CloudFormation stack: {stack}..." []
            [("stack", CF_STACKNAME_LAMBDA)] ;;
  print [VStr line] ;;
  cf <~ try_except
          (cf <- perform (AwsClient "cloudformation") ;;
           url <- format "https://s3.amazonaws.com/{bucket}/{template}" []
                    [("bucket", CF_LAMBDA_S3_BUCKET_NAME);
                     ("template", CF_TEMPLATE_LAMBDA)] ;;
           perform (CreateStack CF_STACKNAME_LAMBDA (TemplateURL url)
                                (Some ["CAPABILITY_IAM"])) ;;
           ret (Next cf))
          create_stack_failed ;;
  _ <~ try_except
          (waiter <- get_waiter cf "stack_create_complete" ;;
           wait waiter CF_STACKNAME_LAMBDA {| Delay := 5; MaxAttempts := 24 |} ;;
           ret (Next tt))
          (except_WaiterError (fun e =>
             print_error (VExc e) ;;
             ret (Return_ (-1)))) ;;
  ret 0.

(** Defaults of the keyword parameters of [delete_cf_stack] (line 241). *)
Definition default_wait_delay : Z := 5.
Definition default_wait_max_attempts : Z := 12.
Definition default_verbose : bool := true.

(** Lines 241-261. *)
Definition delete_cf_stack (stack_name : string) (cf_client : option Client)
           (wait_delay wait_max_attempts : Z) (verbose : bool) : M Z :=
  (if verbose
   then line <- format "Deleting CloudFormation stack: {}..." [stack_name] [] ;;
        print [VStr line]
   else ret tt) ;;
  cf_client <- match cf_client with
               | None => perform (AwsClient "cloudformation")
               | Some c => ret c
               end ;;
  perform (DeleteStack stack_name) ;;
  _ <~ try_except
          (waiter <- get_waiter cf_client "stack_delete_complete" ;;
           wait waiter stack_name
                {| Delay := wait_delay; MaxAttempts := wait_max_attempts |} ;;
           ret (Next tt))
          (except_WaiterError (fun e =>
             (if verbose then print_error (VExc e) else ret tt) ;;
             ret (Return_ (-1)))) ;;
  ret 0.

(** [objects['Contents']] *)
Definition get_Contents (objects : ListObjectsV2Output) : M (list S3Object) :=
  match Contents objects with
  | Some objs => ret objs
  | None => raise (KeyError "Contents")
  end.

(** Lines 273-276 and 279-282: empty one bucket. *)
Definition empty_bucket (bucket : string) : M unit :=
  objects <- perform (ListObjectsV2 bucket) ;;
  if truthy (KeyCount objects)
  then contents <- get_Contents objects ;;
       perform (DeleteObjects bucket (map obj_Key contents))
  else ret tt.

(** [a or b] on integers: [b] is evaluated only when [a] is zero. *)
Definition or_ (a b : M Z) : M Z :=
  x <- a ;;
  if truthy x then ret x else b.

(** Lines 266-292. *)
Definition delete_cloudformation_stacks : M Z :=
  print [VStr "Emptying all buckets..."] ;;
  s3 <- perform (AwsClient "s3") ;;
  empty_bucket CF_BOOTSTRAP_S3_BUCKET_NAME ;;
  empty_bucket CF_LAMBDA_S3_BUCKET_NAME ;;
  cf <- perform (AwsClient "cloudformation") ;;
  failed <- or_ (delete_cf_stack CF_STACKNAME_LAMBDA (Some cf)
                                 default_wait_delay 24 default_verbose)
             (or_ (delete_cf_stack CF_STACKNAME_LAMBDA_S3 (Some cf)
                                   default_wait_delay default_wait_max_attempts
                                   default_verbose)
                  (delete_cf_stack CF_STACKNAME_BOOTSTRAP_S3 (Some cf)
                                   default_wait_delay default_wait_max_attempts
                                   default_verbose)) ;;
  if truthy failed then ret (-1) else ret 0.

(** [stages['item'][0]['stageName']] *)
Definition first_stage (stages : list string) : M string :=
  match stages with
  | s :: _ => ret s
  | [] => raise (IndexError "list index out of range")
  end.

(** Lines 325-370: the queries made after a successful creation. *)
Definition describe_created_resources : M unit :=
  cf <- perform (AwsClient "cloudformation") ;;
  perform (DescribeStackResources CF_STACKNAME_LAMBDA) ;;
  resourceRestApi <- perform (DescribeStackResource CF_STACKNAME_LAMBDA "TestRestApi") ;;
  resourceMethod <- perform (DescribeStackResource CF_STACKNAME_LAMBDA "UsersGet") ;;
  resourceResource <- perform (DescribeStackResource CF_STACKNAME_LAMBDA "UsersResource") ;;
  resourceDeploy <- perform (DescribeStackResource CF_STACKNAME_LAMBDA
                                                   "TestRestApiDeployment") ;;
  ag <- perform (AwsClient "apigateway") ;;
  perform (GetRestApi resourceRestApi) ;;
  perform (GetMethod resourceRestApi resourceResource "GET") ;;
  perform (GetResource resourceRestApi resourceResource ["methods"]) ;;
  perform (GetDeployment resourceRestApi resourceDeploy ["apisummary"]) ;;
  stages <- perform (GetStages resourceRestApi resourceDeploy) ;;
  stageName <- first_stage stages ;;
  perform (GetStage resourceRestApi stageName).

(** [if f(): exit(-1)] followed by the rest of the program. *)
Definition exit_if_failed (stage : M Z) (rest : M Z) : M Z :=
  r <- stage ;;
  if truthy r then ret (-1) else rest.

(** Lines 297-371; the value is the argument of [exit].  [delete_stacks] is
    [args.delete]. *)
Definition main (delete_stacks : bool) : M Z :=
  print [VStr "================================================"] ;;
  print [VStr "Create Lambda Function with CloudFormation"; VStr VERSION] ;;
  print [VStr ("================================================" ++ nl)%string] ;;
  if delete_stacks
  then exit_if_failed delete_cloudformation_stacks (ret 0)
  else exit_if_failed create_s3_bucket
         (exit_if_failed create_lambda
            (describe_created_resources ;; ret 0)).

(** A run of the program from provider state [w]: how the process ends,
    the provider state it leaves, and what it did. *)
Definition run_process (delete_stacks : bool) (w : World) : ProcessEnd * World * Log :=
  match main delete_stacks w with
  | (Returned code, w', l) => (Exit code, w', l)
  | (Raised e, w', l) => (Traceback e, w', l)
  end.

(** *** Observations on a log *)

(** A request of any response type. *)
Definition AnyCall : Type := {R : Type & Call R}.

Definition req {R} (c : Call R) : AnyCall := existT Call R c.

Fixpoint calls_of (l : Log) : list AnyCall :=
  match l with
  | [] => []
  | Called R _ c _ :: l' => req c :: calls_of l'
  | Printed _ :: l' => calls_of l'
  end.

Fixpoint printed (l : Log) : list string :=
  match l with
  | [] => []
  | Called _ _ _ _ :: l' => printed l'
  | Printed s :: l' => s :: printed l'
  end.

(** The exception a request was answered with, if any. *)
Definition failure_of (ev : Event) : option PyExc :=
  match ev with
  | Called _ _ _ (Raised e) => Some e
  | _ => None
  end.

Definition failed_call (ev : Event) : bool :=
  match failure_of ev with Some _ => true | None => false end.

(** No request follows a request that raised. *)
Fixpoint stops_at_failure (l : Log) : bool :=
  match l with
  | [] => true
  | ev :: l' =>
      if failed_call ev
      then match calls_of l' with [] => true | _ :: _ => false end
      else stops_at_failure l'
  end.

(** The stack a [delete_stack] request names. *)
Definition stack_deletion (ev : Event) : option string :=
  match ev with
  | Called _ _ (DeleteStack n) _ => Some n
  | _ => None
  end.

Fixpoint deleted_stacks (l : Log) : list string :=
  match l with
  | [] => []
  | ev :: l' =>
      match stack_deletion ev with
      | Some n => n :: deleted_stacks l'
      | None => deleted_stacks l'
      end
  end.

(** The provider states in which [delete_stack] requests were issued. *)
Fixpoint deletion_states (l : Log) : list (string * World) :=
  match l with
  | [] => []
  | Called _ w (DeleteStack n) _ :: l' => (n, w) :: deletion_states l'
  | _ :: l' => deletion_states l'
  end.

(** The requests that empty buckets: listing and batch deletion. *)
Definition bucket_emptying (ev : Event) : bool :=
  match ev with
  | Called _ _ (ListObjectsV2 _) _ => true
  | Called _ _ (DeleteObjects _ _) _ => true
  | _ => false
  end.

(** What was asked of one bucket while emptying it. *)
Inductive BucketRequest : Type :=
| Listed (o : Outcome ListObjectsV2Output)
| BatchDeleted (keys : list string).

Fixpoint bucket_requests (bucket : string) (l : Log) : list BucketRequest :=
  match l with
  | [] => []
  | Called _ _ (ListObjectsV2 b) o :: l' =>
      if String.eqb b bucket
      then Listed o :: bucket_requests bucket l'
      else bucket_requests bucket l'
  | Called _ _ (DeleteObjects b ks) _ :: l' =>
      if String.eqb b bucket
      then BatchDeleted ks :: bucket_requests bucket l'
      else bucket_requests bucket l'
  | _ :: l' => bucket_requests bucket l'
  end.

(** The requests made of one bucket follow its listing: nothing at all when
    the run was cut short before the bucket's turn, a listing alone when it
    raised or named no key, and otherwise the listing followed by one batch
    deletion of exactly the keys it named. *)
Definition emptied_as_listed (reqs : list BucketRequest) (cut_short : bool) : Prop :=
  match reqs with
  | [] => cut_short = true
  | [Listed (Raised _)] => True
  | [Listed (Returned r)] => listed_keys r = []
  | [Listed (Returned r); BatchDeleted keys] =>
      listed_keys r <> [] /\ keys = listed_keys r
  | _ => False
  end.

(** No emptying request comes after a [delete_stack] request. *)
Fixpoint emptying_precedes_deletion (l : Log) : bool :=
  match l with
  | [] => true
  | ev :: l' =>
      match stack_deletion ev with
      | Some _ => forallb (fun ev' => negb (bucket_emptying ev')) l'
      | None => emptying_precedes_deletion l'
      end
  end.

(** The [create_stack] requests and the waits of a log, with the
    arguments the properties below are about. *)
Fixpoint stack_creations (l : Log)
  : list (string * TemplateSource * option (list string)) :=
  match l with
  | [] => []
  | Called _ _ (CreateStack n t caps) _ :: l' => (n, t, caps) :: stack_creations l'
  | _ :: l' => stack_creations l'
  end.

Fixpoint wait_budgets (l : Log) : list (string * Z) :=
  match l with
  | [] => []
  | Called _ _ (WaiterWait _ n cfg) _ :: l' => (n, MaxAttempts cfg) :: wait_budgets l'
  | _ :: l' => wait_budgets l'
  end.

Definition all_succeeded (l : Log) : bool :=
  forallb (fun ev => negb (failed_call ev)) l.

(** The three components of a run. *)
Definition outcome_of {A} (r : Outcome A * World * Log) : Outcome A := fst (fst r).
Definition state_of {A} (r : Outcome A * World * Log) : World := snd (fst r).
Definition log_of {A} (r : Outcome A * World * Log) : Log := snd r.

End Script.

Arguments Called {World} R before c o.
Arguments Printed {World} line.
Arguments ret {World A} a _.
Arguments raise {World A} e _.
Arguments bind {World A B} m f _.
Arguments perform {World} provider {R} c _.
Arguments print {World} args _.
Arguments print_error {World} x _.
Arguments try_except {World A} body handler _.
Arguments create_s3_bucket {World} provider _.
Arguments create_lambda {World} provider _.
Arguments delete_cf_stack {World} provider stack_name cf_client wait_delay
  wait_max_attempts verbose _.
Arguments empty_bucket {World} provider bucket _.
Arguments delete_cloudformation_stacks {World} provider _.
Arguments describe_created_resources {World} provider _.
Arguments main {World} provider delete_stacks _.
Arguments run_process {World} provider delete_stacks w.
Arguments calls_of {World} l.
Arguments printed {World} l.
Arguments failure_of {World} ev.
Arguments failed_call {World} ev.
Arguments stops_at_failure {World} l.
Arguments stack_deletion {World} ev.
Arguments deleted_stacks {World} l.
Arguments deletion_states {World} l.
Arguments bucket_emptying {World} ev.
Arguments bucket_requests {World} bucket l.
Arguments stack_creations {World} l.
Arguments wait_budgets {World} l.
Arguments emptying_precedes_deletion {World} l.
Arguments all_succeeded {World} l.
Arguments outcome_of {World A} r.
Arguments state_of {World A} r.
Arguments log_of {World A} r.

(** ** A reference provider

    A small executable account: stacks, buckets with their keys, how many
    polls each stack needs before it settles, and the number of stacks the
    account may hold.  It follows the behaviour the script's comments
    rely on: [delete_stack] of an absent stack returns normally, a stack that
    owns a non-empty bucket cannot be deleted, a waiter gives up after
    [MaxAttempts] polls. *)

Module Sim.

Record World : Type :=
  { stacks : list string;
    deleting : list string;
    buckets : list (string * list string);
    latency : list (string * Z);
    stack_limit : nat }.

Definition mem (x : string) (l : list string) : bool :=
  existsb (String.eqb x) l.

Definition remove (x : string) (l : list string) : list string :=
  filter (fun y => negb (String.eqb x y)) l.

Fixpoint assoc {A} (k : string) (m : list (string * A)) : option A :=
  match m with
  | [] => None
  | (k', v) :: m' => if String.eqb k k' then Some v else assoc k m'
  end.

Fixpoint update {A} (k : string) (v : A) (m : list (string * A)) : list (string * A) :=
  match m with
  | [] => [(k, v)]
  | (k', v') :: m' => if String.eqb k k' then (k, v) :: m' else (k', v') :: update k v m'
  end.

Definition drop {A} (k : string) (m : list (string * A)) : list (string * A) :=
  filter (fun kv => negb (String.eqb k (fst kv))) m.

Definition bucket_keys (w : World) (b : string) : list string :=
  match assoc b (buckets w) with
  | Some ks => ks
  | None => []
  end.

Definition stack_exists (w : World) (n : string) : bool :=
  mem n (stacks w) || mem n (deleting w).

Definition polls_needed (w : World) (n : string) : Z :=
  match assoc n (latency w) with
  | Some k => k
  | None => 1
  end.

(** The bucket each storage stack's template declares. *)
Definition bucket_of_stack (n : string) : option string :=
  if String.eqb n CF_STACKNAME_BOOTSTRAP_S3 then Some CF_BOOTSTRAP_S3_BUCKET_NAME
  else if String.eqb n CF_STACKNAME_LAMBDA_S3 then Some CF_LAMBDA_S3_BUCKET_NAME
  else None.

Definition no_such_bucket : PyExc :=
  ClientError "NoSuchBucket" "The specified bucket does not exist".

Definition set_stacks (w : World) (s d : list string)
           (b : list (string * list string)) : World :=
  {| stacks := s; deleting := d; buckets := b;
     latency := latency w; stack_limit := stack_limit w |}.

Definition set_buckets (w : World) (b : list (string * list string)) : World :=
  set_stacks w (stacks w) (deleting w) b.

Definition listing (ks : list string) : ListObjectsV2Output :=
  {| KeyCount := Z.of_nat (length ks);
     Contents := match ks with
                 | [] => None
                 | _ :: _ => Some (map (fun k => {| obj_Key := k; obj_Size := 0 |}) ks)
                 end |}.

Definition limit_exceeded : PyExc :=
  ClientError "LimitExceededException" "Limit for stack has been exceeded".

Definition provider (R : Type) (c : Call R) (w : World) : Outcome R * World :=
  match c in Call R return Outcome R * World with
  | AwsClient svc => (Returned {| service_name := svc |}, w)
  | CreateStack n _ _ =>
      if stack_exists w n
      then (Raised (ClientError "AlreadyExistsException"
                                ("Stack [" ++ n ++ "] already exists")%string), w)
      else if (stack_limit w <=? length (stacks w))%nat
      then (Raised limit_exceeded, w)
      else (Returned tt,
            set_stacks w (n :: stacks w) (deleting w)
                       (match bucket_of_stack n with
                        | Some b => update b [] (buckets w)
                        | None => buckets w
                        end))
  | WaiterWait kind n cfg =>
      if String.eqb kind "stack_create_complete" then
        if mem n (stacks w) && (polls_needed w n <=? MaxAttempts cfg)
        then (Returned tt, w)
        else (Raised (WaiterError "Max attempts exceeded"), w)
      else if String.eqb kind "stack_delete_complete" then
        if mem n (stacks w)
        then (Raised (WaiterError
                        "Waiter encountered a terminal failure state"), w)
        else if mem n (deleting w) && negb (polls_needed w n <=? MaxAttempts cfg)
             then (Raised (WaiterError "Max attempts exceeded"), w)
             else (Returned tt,
                   set_stacks w (stacks w) (remove n (deleting w)) (buckets w))
      else (Raised (ValueError ("Waiter does not exist: " ++ kind)%string), w)
  | UploadFile _ b k =>
      match assoc b (buckets w) with
      | Some ks =>
          (Returned tt,
           set_buckets w (update b (if mem k ks then ks else ks ++ [k]) (buckets w)))
      | None =>
          (Raised (OtherException "S3UploadFailedError"
                                  "Failed to upload: NoSuchBucket"), w)
      end
  | DeleteStack n =>
      if mem n (stacks w) then
        match bucket_of_stack n with
        | Some b =>
            match bucket_keys w b with
            | [] => (Returned tt,
                     set_stacks w (remove n (stacks w)) (n :: deleting w)
                                (drop b (buckets w)))
            | _ :: _ => (Returned tt, w)
            end
        | None => (Returned tt,
                   set_stacks w (remove n (stacks w)) (n :: deleting w) (buckets w))
        end
      else (Returned tt, w)
  | ListObjectsV2 b =>
      match assoc b (buckets w) with
      | Some ks => (Returned (listing ks), w)
      | None => (Raised no_such_bucket, w)
      end
  | DeleteObjects b ks =>
      match assoc b (buckets w) with
      | Some old =>
          (Returned tt,
           set_buckets w (update b (filter (fun k => negb (mem k ks)) old)
                                 (buckets w)))
      | None => (Raised no_such_bucket, w)
      end
  | DescribeStackResources n => (Returned tt, w)
  | DescribeStackResource n id =>
      if mem n (stacks w)
      then (Returned (id ++ "-id")%string, w)
      else (Raised (ClientError "ValidationError"
                                ("Stack '" ++ n ++ "' does not exist")%string), w)
  | GetRestApi _ => (Returned tt, w)
  | GetMethod _ _ _ => (Returned tt, w)
  | GetResource _ _ _ => (Returned tt, w)
  | GetDeployment _ _ _ => (Returned tt, w)
  | GetStages _ _ => (Returned ["v1"%string], w)
  | GetStage _ _ => (Returned tt, w)
  end.

(** An account with nothing in it. *)
Definition fresh : World :=
  {| stacks := []; deleting := []; buckets := []; latency := [];
     stack_limit := 200 |}.

(** The account after a successful creation run, with the three uploads
    in their buckets. *)
Definition provisioned : World :=
  {| stacks := [CF_STACKNAME_LAMBDA; CF_STACKNAME_LAMBDA_S3; CF_STACKNAME_BOOTSTRAP_S3];
     deleting := [];
     buckets := [(CF_BOOTSTRAP_S3_BUCKET_NAME, [CF_TEMPLATE_S3]);
                 (CF_LAMBDA_S3_BUCKET_NAME, [CF_TEMPLATE_LAMBDA; CF_LAMBDA_SOURCE])];
     latency := [];
     stack_limit := 200 |}.

Definition with_latency (w : World) (n : string) (polls : Z) : World :=
  {| stacks := stacks w; deleting := deleting w; buckets := buckets w;
     latency := update n polls (latency w); stack_limit := stack_limit w |}.

Definition with_stack_limit (w : World) (n : nat) : World :=
  {| stacks := stacks w; deleting := deleting w; buckets := buckets w;
     latency := latency w; stack_limit := n |}.

(** The account between the Bootstrap/Build stage and the Deploy stage. *)
Definition built : World :=
  {| stacks := [CF_STACKNAME_LAMBDA_S3; CF_STACKNAME_BOOTSTRAP_S3];
     deleting := [];
     buckets := [(CF_BOOTSTRAP_S3_BUCKET_NAME, [CF_TEMPLATE_S3]);
                 (CF_LAMBDA_S3_BUCKET_NAME, [CF_TEMPLATE_LAMBDA])];
     latency := [];
     stack_limit := 200 |}.

End Sim.

(** ** The sequences the stages are meant to follow *)

Definition s3_url (bucket key : string) : string :=
  ("https://s3.amazonaws.com/" ++ bucket ++ "/" ++ key)%string.

(** The bootstrap template with the bucket name filled in. *)
Definition bootstrap_template_body : string :=
  Eval cbv in
    match str_format CF_TEMPLATE_BOOTSTRAP_S3 []
                     [("bucketName", CF_BOOTSTRAP_S3_BUCKET_NAME)] with
    | Returned body => body
    | Raised _ => EmptyString
    end.

Definition storage_budget : WaiterConfig := {| Delay := 5; MaxAttempts := 12 |}.
Definition deploy_budget : WaiterConfig := {| Delay := 5; MaxAttempts := 24 |}.

(** Requests of a complete run of [create_s3_bucket]. *)
Definition bootstrap_build_plan : list AnyCall :=
  [ req (AwsClient "cloudformation");
    req (CreateStack CF_STACKNAME_BOOTSTRAP_S3 (TemplateBody bootstrap_template_body) None);
    req (WaiterWait "stack_create_complete" CF_STACKNAME_BOOTSTRAP_S3 storage_budget);
    req (AwsClient "s3");
    req (UploadFile CF_TEMPLATE_S3 CF_BOOTSTRAP_S3_BUCKET_NAME CF_TEMPLATE_S3);
    req (CreateStack CF_STACKNAME_LAMBDA_S3
                     (TemplateURL (s3_url CF_BOOTSTRAP_S3_BUCKET_NAME CF_TEMPLATE_S3)) None);
    req (WaiterWait "stack_create_complete" CF_STACKNAME_LAMBDA_S3 storage_budget);
    req (UploadFile CF_TEMPLATE_LAMBDA CF_LAMBDA_S3_BUCKET_NAME CF_TEMPLATE_LAMBDA) ].

(** Requests of a complete run of [create_lambda]. *)
Definition deploy_plan : list AnyCall :=
  [ req (AwsClient "s3");
    req (UploadFile CF_LAMBDA_SOURCE CF_LAMBDA_S3_BUCKET_NAME CF_LAMBDA_SOURCE);
    req (AwsClient "cloudformation");
    req (CreateStack CF_STACKNAME_LAMBDA
                     (TemplateURL (s3_url CF_LAMBDA_S3_BUCKET_NAME CF_TEMPLATE_LAMBDA))
                     (Some ["CAPABILITY_IAM"%string]));
    req (WaiterWait "stack_create_complete" CF_STACKNAME_LAMBDA deploy_budget) ].

(** Stack deletions of a complete teardown. *)
Definition teardown_order : list string :=
  [CF_STACKNAME_LAMBDA; CF_STACKNAME_LAMBDA_S3; CF_STACKNAME_BOOTSTRAP_S3].

(** [l] is an initial segment of [full]. *)
Definition prefix_of {A} (l full : list A) : Prop := exists rest, l ++ rest = full.

(** ** Further observations and plans *)

(** The requests of a log that are neither a listing nor a batch deletion. *)
Fixpoint control_calls {World} (l : list (Event World)) : list AnyCall :=
  match l with
  | [] => []
  | Called R w c o :: l' =>
      if bucket_emptying (Called R w c o)
      then control_calls l'
      else req c :: control_calls l'
  | Printed _ :: l' => control_calls l'
  end.

Definition delete_wait (stack_name : string) (attempts : Z) : AnyCall :=
  req (WaiterWait "stack_delete_complete" stack_name
                  {| Delay := 5; MaxAttempts := attempts |}).

(** Requests of a complete run of [delete_cloudformation_stacks], the
    emptying of the buckets left aside. *)
Definition teardown_plan : list AnyCall :=
  [ req (AwsClient "s3");
    req (AwsClient "cloudformation");
    req (DeleteStack CF_STACKNAME_LAMBDA);
    delete_wait CF_STACKNAME_LAMBDA 24;
    req (DeleteStack CF_STACKNAME_LAMBDA_S3);
    delete_wait CF_STACKNAME_LAMBDA_S3 12;
    req (DeleteStack CF_STACKNAME_BOOTSTRAP_S3);
    delete_wait CF_STACKNAME_BOOTSTRAP_S3 12 ].

(** Requests of a complete run of the queries of lines 325-370, given the
    physical identifiers of the REST API, of [UsersResource] and of the
    deployment, and the name of the first stage. *)
Definition inspection_plan (api resource deployment stage : string) : list AnyCall :=
  [ req (AwsClient "cloudformation");
    req (DescribeStackResources CF_STACKNAME_LAMBDA);
    req (DescribeStackResource CF_STACKNAME_LAMBDA "TestRestApi");
    req (DescribeStackResource CF_STACKNAME_LAMBDA "UsersGet");
    req (DescribeStackResource CF_STACKNAME_LAMBDA "UsersResource");
    req (DescribeStackResource CF_STACKNAME_LAMBDA "TestRestApiDeployment");
    req (AwsClient "apigateway");
    req (GetRestApi api);
    req (GetMethod api resource "GET");
    req (GetResource api resource ["methods"%string]);
    req (GetDeployment api deployment ["apisummary"%string]);
    req (GetStages api deployment);
    req (GetStage api stage) ].

(** The logical identifiers asked about and the physical identifiers
    returned for them. *)
Fixpoint described {World} (l : list (Event World)) : list (string * string) :=
  match l with
  | [] => []
  | Called _ _ (DescribeStackResource _ logical) (Returned physical) :: l' =>
      (logical, physical) :: described l'
  | _ :: l' => described l'
  end.

(** The stage names each [get_stages] request returned. *)
Fixpoint stage_lists {World} (l : list (Event World)) : list (list string) :=
  match l with
  | [] => []
  | Called _ _ (GetStages _ _) (Returned names) :: l' => names :: stage_lists l'
  | _ :: l' => stage_lists l'
  end.

(** Requests that create something, and requests that destroy something. *)
Definition provisioning {World} (ev : Event World) : bool :=
  match ev with
  | Called _ _ (CreateStack _ _ _) _ => true
  | Called _ _ (UploadFile _ _ _) _ => true
  | _ => false
  end.

Definition destroying {World} (ev : Event World) : bool :=
  match ev with
  | Called _ _ (DeleteStack _) _ => true
  | Called _ _ (DeleteObjects _ _) _ => true
  | _ => false
  end.

(** A wait that raised [WaiterError]. *)
Definition waiter_gave_up {World} (ev : Event World) : bool :=
  match ev with
  | Called _ _ (WaiterWait _ _ _) (Raised (WaiterError _)) => true
  | _ => false
  end.

(** The [except] clauses of [create_s3_bucket] and [create_lambda]: a wait
    is guarded against [WaiterError], every other request of the two stages
    against [ClientError]. *)
Definition guarded_in_creation {World} (ev : Event World) : bool :=
  match ev with
  | Called _ _ (WaiterWait _ _ _) (Raised (WaiterError _)) => true
  | Called _ _ (WaiterWait _ _ _) _ => false
  | Called _ _ _ (Raised (ClientError _ _)) => true
  | _ => false
  end.


(** ** The reference account under restricted permissions

    The caller is denied the operations listed; every other request goes to
    the reference provider. *)

Module Restricted.

Record World : Type := { account : Sim.World; denied : list string }.

Definition operation {R} (c : Call R) : string :=
  match c with
  | AwsClient _ => "sts:GetCallerIdentity"
  | CreateStack _ _ _ => "cloudformation:CreateStack"
  | WaiterWait _ _ _ => "cloudformation:DescribeStacks"
  | UploadFile _ _ _ => "s3:PutObject"
  | DeleteStack _ => "cloudformation:DeleteStack"
  | ListObjectsV2 _ => "s3:ListBucket"
  | DeleteObjects _ _ => "s3:DeleteObject"
  | DescribeStackResources _ => "cloudformation:DescribeStackResources"
  | DescribeStackResource _ _ => "cloudformation:DescribeStackResource"
  | GetRestApi _ | GetMethod _ _ _ | GetResource _ _ _ | GetDeployment _ _ _
  | GetStages _ _ | GetStage _ _ => "apigateway:GET"
  end.

Definition access_denied {R} (c : Call R) : PyExc :=
  ClientError "AccessDenied"
              ("User is not authorized to perform: " ++ operation c)%string.

Definition provider (R : Type) (c : Call R) (w : World) : Outcome R * World :=
  if Sim.mem (operation c) (denied w)
  then (Raised (access_denied c), w)
  else match Sim.provider R c (account w) with
       | (o, a) => (o, {| account := a; denied := denied w |})
       end.

Definition without (op : string) (a : Sim.World) : World :=
  {| account := a; denied := [op] |}.

End Restricted.

(** An account whose deploy stack reports no stage: the queries run against
    the reference provider, except that [get_stages] returns the empty
    list. *)
Definition stageless_provider (R : Type) (c : Call R) (w : Sim.World)
  : Outcome R * Sim.World :=
  match c in Call R return Outcome R * Sim.World with
  | GetStages _ _ => (Returned [], w)
  | c' => Sim.provider _ c' w
  end.

(** The stacks whose [create_stack] request the provider accepted. *)
Fixpoint accepted_creations {World} (l : list (Event World)) : list string :=
  match l with
  | [] => []
  | Called _ _ (CreateStack n _ _) (Returned _) :: l' => n :: accepted_creations l'
  | _ :: l' => accepted_creations l'
  end.

(** ** The reference account with paged listings

    [list_objects_v2] returns at most [page_limit] keys per response (the
    default and the maximum of [MaxKeys] in S3), and [KeyCount] counts the
    keys of that response; every other request is answered by the reference
    provider. *)

Module Paged.

Definition page_limit : nat := 1000.

Definition provider (R : Type) (c : Call R) (w : Sim.World) : Outcome R * Sim.World :=
  match c in Call R return Outcome R * Sim.World with
  | ListObjectsV2 b =>
      match Sim.assoc b (Sim.buckets w) with
      | Some ks => (Returned (Sim.listing (firstn page_limit ks)), w)
      | None => (Raised Sim.no_such_bucket, w)
      end
  | c' => Sim.provider _ c' w
  end.

Definition object_key (n : nat) : string :=
  ("object-" ++ NilEmpty.string_of_uint (Nat.to_uint n))%string.

(** The provisioned account, with 1001 objects in the build bucket. *)
Definition crowded : Sim.World :=
  Sim.set_buckets Sim.provisioned
    [(CF_BOOTSTRAP_S3_BUCKET_NAME, [CF_TEMPLATE_S3]);
     (CF_LAMBDA_S3_BUCKET_NAME, map object_key (seq 0 1001))].

End Paged.

(** ** Symbolic execution of the script against an arbitrary provider *)

Ltac expose :=
  cbv beta iota delta
      [and_then try_except bind perform ret raise lift print print_error add wait
       get_waiter format create_stack_failed except_ClientError except_WaiterError
       or_ get_Contents exit_if_failed first_stage outcome_of state_of log_of
       empty_bucket delete_cf_stack default_wait_delay default_wait_max_attempts
       default_verbose truthy];
  cbn.

Ltac head_of t :=
  match t with
  | ?f _ => head_of f
  | _ => t
  end.

(** Split on the next thing the run depends on: the answer to a request, or
    the test on an error code. *)
Ltac branch provider :=
  match goal with
  | |- context [if String.eqb ?a ?b then _ else _] =>
      let E := fresh "Ecode" in destruct (String.eqb a b) eqn:E
  | |- context [Z.eqb (KeyCount ?r) 0] =>
      let E := fresh "Ecount" in destruct (Z.eqb (KeyCount r) 0) eqn:E
  | |- context [match Contents ?r with Some _ => _ | None => _ end] =>
      let E := fresh "Econtents" in destruct (Contents r) eqn:E
  | |- context [provider ?R ?c ?w] =>
      let o := fresh "o" in
      let w' := fresh "w" in
      let E := fresh "Ecall" in
      destruct (provider R c w) as [o w'] eqn:E;
      destruct o as [? | []]
  end.

Ltac execute provider := expose; repeat (branch provider; expose).

(** Run [prog] along every path, keeping the property to prove folded until
    the path is complete. *)
Ltac run_all provider prog :=
  pattern prog;
  match goal with
  | |- ?P _ =>
      let Q := fresh "Q" in
      set (Q := P);
      let h := head_of prog in
      unfold h;
      execute provider;
      subst Q; cbv beta; expose
  end.

(** What is left on each path is a closed statement about a concrete log. *)
Ltac leaf :=
  repeat split; intros;
  repeat match goal with H : _ /\ _ |- _ => destruct H end;
  repeat split;
  first [ reflexivity | discriminate | (eexists; reflexivity) | idtac ].

(** Find the event of the hypotheses in a concrete log; on the paths where
    it is there, the outcome is the exception it raised. *)
Ltac locate_failure :=
  let Hin := fresh "Hin" in
  let Hfail := fresh "Hfail" in
  let Hkind := fresh "Hkind" in
  intros Hin Hfail Hkind;
  repeat (destruct Hin as [<- | Hin]; [try discriminate |]);
  try contradiction;
  injection Hfail as <-; repeat split; first [ reflexivity | discriminate ].

(** The same, for the whole program: a response that is a list is split
    into the empty list and a non-empty one. *)
Ltac branch_program provider :=
  first
    [ match goal with
      | |- context [match ?s with [] => _ | _ :: _ => _ end] =>
          is_var s; destruct s
      end
    | branch provider ].

Ltac expose_program :=
  cbv beta iota delta
      [run_process main create_s3_bucket create_lambda delete_cloudformation_stacks
       describe_created_resources];
  expose.

Ltac run_program provider prog :=
  pattern prog;
  match goal with
  | |- ?P _ =>
      let Q := fresh "Q" in
      set (Q := P);
      expose_program;
      repeat (branch_program provider; expose);
      subst Q; cbv beta; expose
  end.

Section Creation.

Variable World : Type.
Variable provider : forall R : Type, Call R -> World -> Outcome R * World.

(** C8.  Against every provider and from every provider state, the requests
    [create_s3_bucket] issues are an initial segment of: create the
    bootstrap stack from an inline [TemplateBody], wait, upload
    [CreateS3Bucket.yaml] to the bootstrap bucket, create the build stack
    from the [TemplateURL] of that very object, wait, upload
    [CreateLambdaFunction.yaml] to the build bucket.  No request follows a
    request that failed (so nothing is cleaned up: the segment contains no
    deletion), and the stage returns 0 exactly when the whole sequence was
    issued and every request succeeded.  The stage never stops of its own
    accord: in every run in which no request fails, all eight requests are
    issued, each one after the success of the one before, and 0 is
    returned. *)
Theorem create_s3_bucket_sequence :
  forall w : World,
    let r := create_s3_bucket provider w in
    prefix_of (calls_of (log_of r)) bootstrap_build_plan
    /\ stops_at_failure (log_of r) = true
    /\ deleted_stacks (log_of r) = []
    /\ (outcome_of r = Returned 0
        <-> calls_of (log_of r) = bootstrap_build_plan
            /\ all_succeeded (log_of r) = true)
    /\ (all_succeeded (log_of r) = true ->
        calls_of (log_of r) = bootstrap_build_plan /\ outcome_of r = Returned 0).
Proof.
  intros w r; subst r; unfold prefix_of.
  run_all provider (create_s3_bucket provider w).
  all: leaf.
Qed.

(** X1.  The requests of [create_lambda] are an initial segment of: upload
    [test.zip] to the build bucket, create the deploy stack from the
    [TemplateURL] of [CreateLambdaFunction.yaml] in that bucket, wait.  No
    request follows a request that failed, and the stage returns 0 exactly
    when the whole sequence was issued and every request succeeded. *)
Lemma create_lambda_sequence :
  forall w : World,
    let r := create_lambda provider w in
    prefix_of (calls_of (log_of r)) deploy_plan
    /\ stops_at_failure (log_of r) = true
    /\ (outcome_of r = Returned 0
        <-> calls_of (log_of r) = deploy_plan /\ all_succeeded (log_of r) = true).
Proof.
  intros w r; subst r; unfold prefix_of.
  run_all provider (create_lambda provider w).
  all: leaf.
Qed.

Lemma create_lambda_arguments :
  forall w : World,
    let l := log_of (create_lambda provider w) in
    Forall (fun c => snd c = Some ["CAPABILITY_IAM"%string]) (stack_creations l)
    /\ Forall (fun b => snd b = 24) (wait_budgets l).
Proof.
  intros w l; subst l.
  run_all provider (create_lambda provider w).
  all: split; repeat constructor.
Qed.

Lemma create_s3_bucket_budgets :
  forall w : World,
    Forall (fun b => snd b = 12) (wait_budgets (log_of (create_s3_bucket provider w))).
Proof.
  intros w.
  run_all provider (create_s3_bucket provider w).
  all: repeat constructor.
Qed.

(** Every stack creation the provider accepted is waited for, with the
    budget of its stage; the storage stage creates its two stacks without
    capabilities, in order, and in a run without failure it creates and
    waits for both. *)
Lemma create_s3_bucket_waits :
  forall w : World,
    let l := log_of (create_s3_bucket provider w) in
    wait_budgets l = map (fun n => (n, 12)) (accepted_creations l)
    /\ prefix_of (accepted_creations l)
                 [CF_STACKNAME_BOOTSTRAP_S3; CF_STACKNAME_LAMBDA_S3]
    /\ (all_succeeded l = true ->
        stack_creations l
        = [(CF_STACKNAME_BOOTSTRAP_S3, TemplateBody bootstrap_template_body, None);
           (CF_STACKNAME_LAMBDA_S3,
            TemplateURL (s3_url CF_BOOTSTRAP_S3_BUCKET_NAME CF_TEMPLATE_S3), None)]
        /\ wait_budgets l
           = [(CF_STACKNAME_BOOTSTRAP_S3, 12); (CF_STACKNAME_LAMBDA_S3, 12)]).
Proof.
  intros w l; subst l; unfold prefix_of.
  run_all provider (create_s3_bucket provider w).
  all: leaf.
Qed.

Lemma create_lambda_waits :
  forall w : World,
    let l := log_of (create_lambda provider w) in
    wait_budgets l = map (fun n => (n, 24)) (accepted_creations l)
    /\ (all_succeeded l = true ->
        stack_creations l
        = [(CF_STACKNAME_LAMBDA,
            TemplateURL (s3_url CF_LAMBDA_S3_BUCKET_NAME CF_TEMPLATE_LAMBDA),
            Some ["CAPABILITY_IAM"%string])]
        /\ wait_budgets l = [(CF_STACKNAME_LAMBDA, 24)]).
Proof.
  intros w l; subst l.
  run_all provider (create_lambda provider w).
  all: leaf.
Qed.

(** C7.  Every [create_stack] request of the Deploy stage carries
    [Capabilities=['CAPABILITY_IAM']], every wait of the Deploy stage has
    [MaxAttempts] 24, every wait of the storage stage has [MaxAttempts] 12,
    and 12 < 24.  The waits are really made: in each stage every stack
    creation the provider accepted is followed by a wait for that stack with
    the budget of the stage (24 for [LambdaFunction], 12 for each of
    [BootstrapS3Bucket] and [LambdaS3Bucket]), and in a run in which no
    request fails the Deploy stage creates and waits for its stack and the
    storage stage creates and waits for both of its stacks, in order. *)
Theorem deploy_capability_and_budget :
  forall w w' : World,
    let deploy := log_of (create_lambda provider w) in
    let storage := log_of (create_s3_bucket provider w') in
    Forall (fun c => snd c = Some ["CAPABILITY_IAM"%string]) (stack_creations deploy)
    /\ Forall (fun b => snd b = MaxAttempts deploy_budget) (wait_budgets deploy)
    /\ Forall (fun b => snd b = MaxAttempts storage_budget) (wait_budgets storage)
    /\ MaxAttempts storage_budget < MaxAttempts deploy_budget
    /\ (all_succeeded deploy = true ->
        stack_creations deploy
        = [(CF_STACKNAME_LAMBDA,
            TemplateURL (s3_url CF_LAMBDA_S3_BUCKET_NAME CF_TEMPLATE_LAMBDA),
            Some ["CAPABILITY_IAM"%string])]
        /\ wait_budgets deploy = [(CF_STACKNAME_LAMBDA, 24)])
    /\ wait_budgets deploy = map (fun n => (n, 24)) (accepted_creations deploy)
    /\ wait_budgets storage = map (fun n => (n, 12)) (accepted_creations storage)
    /\ prefix_of (accepted_creations storage)
                 [CF_STACKNAME_BOOTSTRAP_S3; CF_STACKNAME_LAMBDA_S3]
    /\ (all_succeeded storage = true ->
        stack_creations storage
        = [(CF_STACKNAME_BOOTSTRAP_S3, TemplateBody bootstrap_template_body, None);
           (CF_STACKNAME_LAMBDA_S3,
            TemplateURL (s3_url CF_BOOTSTRAP_S3_BUCKET_NAME CF_TEMPLATE_S3), None)]
        /\ wait_budgets storage
           = [(CF_STACKNAME_BOOTSTRAP_S3, 12); (CF_STACKNAME_LAMBDA_S3, 12)]).
Proof.
  intros w w' deploy storage.
  destruct (create_lambda_arguments w) as [Hcap Hbudget].
  destruct (create_lambda_waits w) as [Hdw Hdall].
  destruct (create_s3_bucket_waits w') as (Hsw & Hsp & Hsall).
  split; [exact Hcap |].
  split; [exact Hbudget |].
  split; [apply create_s3_bucket_budgets |].
  split; [reflexivity |].
  split; [exact Hdall |].
  split; [exact Hdw |].
  split; [exact Hsw |].
  split; [exact Hsp | exact Hsall].
Qed.

(** X6.  When [create_s3_bucket] does not return 0, a creation run issues no
    request beyond those of [create_s3_bucket], and the process status is
    not 0. *)
Lemma failed_build_stops_the_run :
  forall w : World,
    outcome_of (create_s3_bucket provider w) <> Returned 0 ->
    calls_of (snd (run_process provider false w))
    = calls_of (log_of (create_s3_bucket provider w))
    /\ exit_status (fst (fst (run_process provider false w))) <> 0.
Proof.
  intros w.
  cbv beta iota delta [run_process main exit_if_failed bind print ret outcome_of log_of].
  destruct (create_s3_bucket provider w) as [[[v | e] w1] l1]; cbn [fst snd].
  - unfold truthy. destruct (Z.eqb_spec v 0) as [-> | Hv]; cbn.
    + intros H; exfalso; apply H; reflexivity.
    + intros _. split.
      * rewrite app_nil_r. reflexivity.
      * discriminate.
  - intros _. cbn. split; [reflexivity | discriminate].
Qed.

End Creation.

Section Teardown.

Variable World : Type.
Variable provider : forall R : Type, Call R -> World -> Outcome R * World.

(** With [verbose] set, as at every call site of the script,
    [delete_cf_stack] never returns -1: it returns 0 or raises. *)
Lemma delete_cf_stack_verbose_outcome :
  forall stack_name cf d m (w : World),
    let r := delete_cf_stack provider stack_name cf d m true w in
    outcome_of r = Returned 0 \/ exists e, outcome_of r = Raised e.
Proof.
  intros stack_name cf d m w r; subst r.
  destruct cf as [c |].
  - run_all provider (delete_cf_stack provider stack_name (Some c) d m true w).
    all: first [ left; reflexivity | right; eexists; reflexivity ].
  - run_all provider (delete_cf_stack provider stack_name None d m true w).
    all: first [ left; reflexivity | right; eexists; reflexivity ].
Qed.

(** The stack deletions of a teardown are an initial segment of
    [LambdaFunction; LambdaS3Bucket; BootstrapS3Bucket], and no request
    follows a request that failed. *)
Lemma teardown_deletion_order :
  forall w : World,
    let r := delete_cloudformation_stacks provider w in
    prefix_of (deleted_stacks (log_of r)) teardown_order
    /\ stops_at_failure (log_of r) = true
    /\ (outcome_of r = Returned 0 ->
        deleted_stacks (log_of r) = teardown_order).
Proof.
  intros w r; subst r; unfold prefix_of.
  run_all provider (delete_cloudformation_stacks provider w).
  all: leaf.
Qed.

(** X3.  [delete_cloudformation_stacks] returns 0, and then every request
    succeeded, or it raises; [return -1] (line 289) is never reached. *)
Lemma teardown_outcome :
  forall w : World,
    let r := delete_cloudformation_stacks provider w in
    (outcome_of r = Returned 0 /\ all_succeeded (log_of r) = true)
    \/ (exists e, outcome_of r = Raised e).
Proof.
  intros w r; subst r.
  run_all provider (delete_cloudformation_stacks provider w).
  all: first [ left; split; reflexivity | right; eexists; reflexivity ].
Qed.

(** C10.  When a listing or a batch deletion of the emptying step raises,
    that very exception is the outcome of [delete_cloudformation_stacks]:
    no [delete_stack] request was issued, nothing but the announcement of
    the emptying step was printed, and the function did not return -1. *)
Theorem emptying_failure_propagates :
  forall (w : World) (ev : Event World) (e : PyExc),
    let r := delete_cloudformation_stacks provider w in
    In ev (log_of r) ->
    bucket_emptying ev = true ->
    failure_of ev = Some e ->
    outcome_of r = Raised e
    /\ deleted_stacks (log_of r) = []
    /\ printed (log_of r) = ["Emptying all buckets..."%string]
    /\ outcome_of r <> Returned (-1).
Proof.
  intros w ev e r; subst r.
  run_all provider (delete_cloudformation_stacks provider w).
  all: intros Hin Hkind Hfail.
  all: repeat (destruct Hin as [<- | Hin]; [try discriminate |]); try contradiction.
  all: injection Hfail as <-.
  all: repeat split; first [ reflexivity | discriminate ].
Qed.

(** *** The listing contract: [KeyCount] counts the keys of [Contents] *)

Section Listing.

Hypothesis listing_count :
  forall b (w w' : World) r,
    provider _ (ListObjectsV2 b) w = (Returned r, w') ->
    KeyCount r = Z.of_nat (length (listed_keys r)).

Lemma listed_nil_of_count :
  forall r, KeyCount r = Z.of_nat (length (listed_keys r)) ->
            (KeyCount r =? 0) = true -> listed_keys r = [].
Proof.
  intros r Hc Hz. apply Z.eqb_eq in Hz.
  destruct (listed_keys r); [reflexivity | simpl in Hc; lia].
Qed.

Lemma listed_cons_of_count :
  forall r, KeyCount r = Z.of_nat (length (listed_keys r)) ->
            (KeyCount r =? 0) = false -> listed_keys r <> [].
Proof.
  intros r Hc Hz Hnil. apply Z.eqb_neq in Hz.
  rewrite Hnil in Hc. simpl in Hc. contradiction.
Qed.

Lemma listed_of_contents :
  forall r objs, Contents r = Some objs -> listed_keys r = map obj_Key objs.
Proof. intros r objs H. unfold listed_keys. rewrite H. reflexivity. Qed.

Lemma listed_without_contents :
  forall r, Contents r = None -> listed_keys r = [].
Proof. intros r H. unfold listed_keys. rewrite H. reflexivity. Qed.

(** C9.  For the bootstrap bucket and for the build bucket, the requests
    the teardown makes of the bucket are: its listing and, exactly when
    the listing names at least one key, one batch deletion of exactly the
    listed keys; when the listing names no key, no deletion request.  (A
    bucket is not reached at all only when an earlier request raised.) *)
Theorem buckets_emptied_as_listed :
  forall w : World,
    let l := log_of (delete_cloudformation_stacks provider w) in
    emptied_as_listed (bucket_requests CF_BOOTSTRAP_S3_BUCKET_NAME l)
                      (negb (all_succeeded l))
    /\ emptied_as_listed (bucket_requests CF_LAMBDA_S3_BUCKET_NAME l)
                         (negb (all_succeeded l)).
Proof.
  intros w l; subst l.
  run_all provider (delete_cloudformation_stacks provider w).
  all: repeat match goal with
         | E : provider _ (ListObjectsV2 _) _ = (Returned _, _) |- _ =>
             apply listing_count in E
         end.
  all: split; cbn.
  all: first
         [ reflexivity
         | exact I
         | (apply listed_nil_of_count; assumption)
         | (apply listed_without_contents; assumption)
         | (split;
            [ apply listed_cons_of_count; assumption
            | symmetry; apply listed_of_contents; assumption ])
         | (* a listing that counts keys but has no [Contents] breaks the
              contract *)
           (exfalso;
            match goal with
            | Hc : KeyCount ?r = _, Hz : (KeyCount ?r =? 0) = false,
              Hn : Contents ?r = None |- _ =>
                apply (listed_cons_of_count r Hc Hz);
                apply listed_without_contents; exact Hn
            end) ].
Qed.

End Listing.

(** *** The object-store contract *)

Section ObjectStore.

(** The keys a bucket holds in a provider state. *)
Variable bucket_keys : World -> string -> list string.

(** A listing that reports no key was made of an empty bucket, and a
    listing names every key of the bucket. *)
Hypothesis listing_complete :
  forall b (w w' : World) r,
    provider _ (ListObjectsV2 b) w = (Returned r, w') ->
    (KeyCount r = 0 -> bucket_keys w b = [])
    /\ (forall k, In k (bucket_keys w b) -> In k (listed_keys r)).

(** A batch deletion that returns has removed the keys it was given. *)
Hypothesis batch_delete_removes :
  forall b keys (w w' : World) u,
    provider _ (DeleteObjects b keys) w = (Returned u, w') ->
    forall k, In k keys -> ~ In k (bucket_keys w' b).

(** Only an upload adds a key to a bucket. *)
Hypothesis only_upload_adds :
  forall R (c : Call R) (w w' : World) o,
    provider R c w = (o, w') ->
    is_upload c = false ->
    forall b k, In k (bucket_keys w' b) -> In k (bucket_keys w b).

Lemma stays_empty :
  forall R (c : Call R) (w w' : World) o b,
    provider R c w = (o, w') ->
    is_upload c = false ->
    bucket_keys w b = [] -> bucket_keys w' b = [].
Proof.
  intros R c w w' o b Hcall Hup Hempty.
  destruct (bucket_keys w' b) as [| k ks] eqn:Hk; [reflexivity |].
  assert (Hin : In k (bucket_keys w b)).
  { apply (only_upload_adds R c w w' o Hcall Hup). rewrite Hk. left. reflexivity. }
  rewrite Hempty in Hin. contradiction.
Qed.

Lemma empty_when_none_listed :
  forall b (w w' : World) r,
    provider _ (ListObjectsV2 b) w = (Returned r, w') ->
    (KeyCount r =? 0) = true ->
    bucket_keys w' b = [].
Proof.
  intros b w w' r Hcall Hz.
  apply (stays_empty _ _ _ _ _ _ Hcall); [reflexivity |].
  apply (listing_complete _ _ _ _ Hcall). apply Z.eqb_eq. exact Hz.
Qed.

Lemma empty_after_batch_delete :
  forall b (w1 w2 w3 : World) r objs u,
    provider _ (ListObjectsV2 b) w1 = (Returned r, w2) ->
    Contents r = Some objs ->
    provider _ (DeleteObjects b (map obj_Key objs)) w2 = (Returned u, w3) ->
    bucket_keys w3 b = [].
Proof.
  intros b w1 w2 w3 r objs u Hlist Hobjs Hdel.
  destruct (bucket_keys w3 b) as [| k ks] eqn:Hk; [reflexivity |].
  exfalso.
  assert (H3 : In k (bucket_keys w3 b)) by (rewrite Hk; left; reflexivity).
  apply (batch_delete_removes _ _ _ _ _ Hdel k); [| exact H3].
  assert (H2 : In k (bucket_keys w2 b)).
  { apply (only_upload_adds _ _ _ _ _ Hdel); [reflexivity | exact H3]. }
  assert (H1 : In k (bucket_keys w1 b)).
  { apply (only_upload_adds _ _ _ _ _ Hlist); [reflexivity | exact H2]. }
  apply (listing_complete _ _ _ _ Hlist) in H1.
  unfold listed_keys in H1. rewrite Hobjs in H1. exact H1.
Qed.

(** Carry every known emptiness across every request of the path. *)
Ltac saturate :=
  repeat match goal with
    | E : provider _ (ListObjectsV2 ?b) _ = (Returned ?r, ?w'),
      Hz : (KeyCount ?r =? 0) = true |- _ =>
        lazymatch goal with
        | _ : bucket_keys w' b = [] |- _ => fail
        | _ => pose proof (empty_when_none_listed _ _ _ _ E Hz)
        end
    | E : provider _ (ListObjectsV2 ?b) _ = (Returned ?r, _),
      Hc : Contents ?r = Some ?objs,
      D : provider _ (DeleteObjects ?b _) _ = (Returned _, ?w3) |- _ =>
        lazymatch goal with
        | _ : bucket_keys w3 b = [] |- _ => fail
        | _ => pose proof (empty_after_batch_delete _ _ _ _ _ _ _ E Hc D)
        end
    | E : provider _ ?c ?w = (_, ?w'), H : bucket_keys ?w ?b = [] |- _ =>
        lazymatch goal with
        | _ : bucket_keys w' b = [] |- _ => fail
        | _ => pose proof (stays_empty _ c w w' _ b E eq_refl H)
        end
    end.

(** Against a provider that meets the object-store contract of this section
    (a listing names every key of the bucket), no listing or batch deletion
    comes after a [delete_stack] request, and in the provider state in which
    any of the [delete_stack] requests is issued both storage buckets hold no
    key.  A run against a provider whose listings are paged, where the
    second part fails, is evaluated at the end of the file. *)
Theorem buckets_empty_before_stack_deletion :
  forall w : World,
    let l := log_of (delete_cloudformation_stacks provider w) in
    emptying_precedes_deletion l = true
    /\ Forall (fun nw => bucket_keys (snd nw) CF_BOOTSTRAP_S3_BUCKET_NAME = []
                         /\ bucket_keys (snd nw) CF_LAMBDA_S3_BUCKET_NAME = [])
              (deletion_states l).
Proof.
  intros w l; subst l.
  run_all provider (delete_cloudformation_stacks provider w).
  all: split; [reflexivity |].
  all: try solve [constructor].
  all: saturate.
  all: repeat (constructor; [split; assumption |]); constructor.
Qed.

End ObjectStore.

(** *** Deleting a stack that does not exist *)

Section AbsentStack.

(** Whether the provider knows a stack of that name. *)
Variable stack_exists : World -> string -> bool.

(** Building a client succeeds and touches no stack. *)
Hypothesis client_is_local :
  forall svc (w : World),
  exists c w',
    provider _ (AwsClient svc) w = (Returned c, w')
    /\ forall n, stack_exists w' n = stack_exists w n.

(** Line 249: "If stack does not exist, method returns without throwing
    exception". *)
Hypothesis delete_absent_returns :
  forall n (w : World),
    stack_exists w n = false ->
    exists w',
      provider _ (DeleteStack n) w = (Returned tt, w')
      /\ stack_exists w' n = false.

(** The [stack_delete_complete] waiter succeeds on a stack that is not
    there. *)
Hypothesis wait_absent_succeeds :
  forall n cfg (w : World),
    stack_exists w n = false ->
    exists w',
      provider _ (WaiterWait "stack_delete_complete" n cfg) w = (Returned tt, w').

(** C5.  [delete_cf_stack] on the name of a stack that does not exist
    returns 0.  Its requests are the [delete_stack] request and the wait
    for [stack_delete_complete], preceded by the construction of a client
    when none was passed: no request asks whether the stack exists, and
    none of the requests raises. *)
Theorem delete_absent_stack_succeeds :
  forall stack_name cf_client wait_delay wait_max_attempts verbose (w : World),
    stack_exists w stack_name = false ->
    let r := delete_cf_stack provider stack_name cf_client wait_delay
                             wait_max_attempts verbose w in
    outcome_of r = Returned 0
    /\ calls_of (log_of r)
       = match cf_client with
         | None => [req (AwsClient "cloudformation")]
         | Some _ => []
         end
         ++ [ req (DeleteStack stack_name);
              req (WaiterWait "stack_delete_complete" stack_name
                              {| Delay := wait_delay;
                                 MaxAttempts := wait_max_attempts |}) ]
    /\ all_succeeded (log_of r) = true.
Proof.
  intros stack_name cf_client d m verbose w Habsent r; subst r.
  assert (Hstart : exists w0,
             stack_exists w0 stack_name = false
             /\ match cf_client with
                | None => exists c, provider _ (AwsClient "cloudformation") w
                                    = (Returned c, w0)
                | Some _ => w0 = w
                end).
  { destruct cf_client as [c |].
    - exists w. split; [exact Habsent | reflexivity].
    - destruct (client_is_local "cloudformation" w) as (c & w0 & Hc & Hsame).
      exists w0. split; [rewrite Hsame; exact Habsent | exists c; exact Hc]. }
  destruct Hstart as (w0 & Habsent0 & Hclient).
  destruct (delete_absent_returns stack_name w0 Habsent0) as (w1 & Hdel & Habsent1).
  destruct (wait_absent_succeeds stack_name
              {| Delay := d; MaxAttempts := m |} w1 Habsent1) as (w2 & Hwait).
  unfold delete_cf_stack.
  destruct cf_client as [c |]; [subst w0 | destruct Hclient as (c & Hclient)];
    destruct verbose; expose;
    repeat first [ rewrite Hclient | rewrite Hdel | rewrite Hwait ]; expose;
    repeat split; reflexivity.
Qed.

End AbsentStack.

End Teardown.

(** ** The reference provider meets the contracts *)

Module SimFacts.
Import Sim.

Lemma mem_In : forall x l, mem x l = true <-> In x l.
Proof.
  intros x l. unfold mem. rewrite existsb_exists. split.
  - intros (y & Hy & Heq). apply String.eqb_eq in Heq. subst y. exact Hy.
  - intros Hin. exists x. split; [exact Hin | apply String.eqb_refl].
Qed.

Lemma assoc_update :
  forall A (k k' : string) (v : A) m,
    assoc k (update k' v m) = if String.eqb k k' then Some v else assoc k m.
Proof.
  intros A k k' v m. induction m as [| [k0 v0] m IH]; simpl.
  - reflexivity.
  - destruct (String.eqb_spec k' k0) as [-> | Hne]; simpl.
    + destruct (String.eqb k k0); reflexivity.
    + rewrite IH.
      destruct (String.eqb_spec k k0) as [-> | Hne'].
      * destruct (String.eqb_spec k0 k') as [<- | _]; [contradiction | reflexivity].
      * reflexivity.
Qed.

Lemma assoc_drop :
  forall A (k k' : string) (m : list (string * A)),
    assoc k (drop k' m) = if String.eqb k k' then None else assoc k m.
Proof.
  intros A k k' m. induction m as [| [k0 v0] m IH]; simpl.
  - destruct (String.eqb k k'); reflexivity.
  - destruct (String.eqb_spec k' k0) as [-> | Hne]; simpl.
    + rewrite IH. destruct (String.eqb k k0); reflexivity.
    + rewrite IH.
      destruct (String.eqb_spec k k0) as [-> | Hne'].
      * destruct (String.eqb_spec k0 k') as [<- | _]; [contradiction | reflexivity].
      * reflexivity.
Qed.

Lemma listing_keys : forall ks, listed_keys (listing ks) = ks.
Proof.
  intros [| k ks]; [reflexivity |].
  unfold listed_keys, listing; simpl. f_equal.
  rewrite map_map. simpl. apply map_id.
Qed.

Lemma listing_count :
  forall b (w w' : World) r,
    provider _ (ListObjectsV2 b) w = (Returned r, w') ->
    KeyCount r = Z.of_nat (length (listed_keys r)).
Proof.
  intros b w w' r H. simpl in H.
  destruct (assoc b (buckets w)) as [ks |]; [| discriminate].
  injection H as <- _. rewrite listing_keys. reflexivity.
Qed.

Lemma listing_complete :
  forall b (w w' : World) r,
    provider _ (ListObjectsV2 b) w = (Returned r, w') ->
    (KeyCount r = 0 -> bucket_keys w b = [])
    /\ (forall k, In k (bucket_keys w b) -> In k (listed_keys r)).
Proof.
  intros b w w' r H. simpl in H. unfold bucket_keys.
  destruct (assoc b (buckets w)) as [ks |]; [| discriminate].
  injection H as <- _. rewrite listing_keys. split.
  - simpl. intros Hz. destruct ks; [reflexivity | discriminate].
  - auto.
Qed.

Lemma batch_delete_removes :
  forall b keys (w w' : World) u,
    provider _ (DeleteObjects b keys) w = (Returned u, w') ->
    forall k, In k keys -> ~ In k (bucket_keys w' b).
Proof.
  intros b keys w w' u H k Hin Hk. simpl in H.
  destruct (assoc b (buckets w)) as [old |]; [| discriminate].
  injection H as _ <-. unfold bucket_keys in Hk. simpl in Hk.
  rewrite assoc_update, String.eqb_refl in Hk.
  apply filter_In in Hk. destruct Hk as [_ Hk].
  apply mem_In in Hin. rewrite Hin in Hk. discriminate.
Qed.

Lemma only_upload_adds :
  forall R (c : Call R) (w w' : World) o,
    provider R c w = (o, w') ->
    is_upload c = false ->
    forall b k, In k (bucket_keys w' b) -> In k (bucket_keys w b).
Proof.
  intros R c w w' o H Hup b k.
  destruct c; simpl in H; try discriminate Hup;
    try (injection H as _ <-; exact (fun x => x)).
  - (* CreateStack *)
    destruct (stack_exists w StackName); [injection H as _ <-; auto |].
    destruct (stack_limit w <=? length (stacks w))%nat; [injection H as _ <-; auto |].
    injection H as _ <-. unfold bucket_keys; simpl.
    destruct (bucket_of_stack StackName) as [b0 |]; [| auto].
    rewrite assoc_update. destruct (String.eqb b b0); [intros [] | auto].
  - (* WaiterWait *)
    repeat match type of H with
           | (if ?t then _ else _) = _ => destruct t
           end; injection H as _ <-; auto.
  - (* DeleteStack *)
    destruct (mem StackName (stacks w)); [| injection H as _ <-; auto].
    destruct (bucket_of_stack StackName) as [b0 |].
    + destruct (bucket_keys w b0) eqn:Hb0; injection H as _ <-; auto.
      unfold bucket_keys; simpl. rewrite assoc_drop.
      destruct (String.eqb b b0); [intros [] | auto].
    + injection H as _ <-; auto.
  - (* ListObjectsV2 *)
    destruct (assoc Bucket (buckets w)); injection H as _ <-; auto.
  - (* DeleteObjects *)
    destruct (assoc Bucket (buckets w)) as [old |] eqn:Hold; injection H as _ <-; auto.
    unfold bucket_keys; simpl. rewrite assoc_update.
    destruct (String.eqb_spec b Bucket) as [-> | _]; [| auto].
    rewrite Hold. intros Hk. apply filter_In in Hk. tauto.
  - (* DescribeStackResource *)
    destruct (mem StackName (stacks w)); injection H as _ <-; auto.
Qed.

Lemma client_is_local :
  forall svc (w : World),
  exists c w',
    provider _ (AwsClient svc) w = (Returned c, w')
    /\ forall n, stack_exists w' n = stack_exists w n.
Proof.
  intros svc w. exists {| service_name := svc |}, w. split; reflexivity.
Qed.

Lemma delete_absent_returns :
  forall n (w : World),
    stack_exists w n = false ->
    exists w',
      provider _ (DeleteStack n) w = (Returned tt, w')
      /\ stack_exists w' n = false.
Proof.
  intros n w Habsent. exists w. split; [| exact Habsent].
  unfold stack_exists in Habsent. apply orb_false_iff in Habsent.
  simpl. destruct Habsent as [-> _]. reflexivity.
Qed.

Lemma wait_absent_succeeds :
  forall n cfg (w : World),
    stack_exists w n = false ->
    exists w',
      provider _ (WaiterWait "stack_delete_complete" n cfg) w = (Returned tt, w').
Proof.
  intros n cfg w Habsent.
  unfold stack_exists in Habsent. apply orb_false_iff in Habsent.
  destruct Habsent as [Hs Hd]. eexists. simpl. rewrite Hs, Hd. reflexivity.
Qed.

End SimFacts.

(** ** Runs against the reference provider *)

(** A complete creation run: eight requests of the storage stage, five of the
    Deploy stage, the queries, and [exit(0)]. *)
Example creation_run :
  fst (fst (run_process Sim.provider false Sim.fresh)) = Exit 0
  /\ state_of (create_s3_bucket Sim.provider Sim.fresh) = Sim.built
  /\ Sim.stacks (snd (fst (run_process Sim.provider false Sim.fresh)))
     = [CF_STACKNAME_LAMBDA; CF_STACKNAME_LAMBDA_S3; CF_STACKNAME_BOOTSTRAP_S3].
Proof. vm_compute. repeat split. Qed.

(** A complete teardown run: both buckets hold objects at the start, and the
    three stacks are deleted. *)
Example teardown_run :
  let r := delete_cloudformation_stacks Sim.provider Sim.provisioned in
  outcome_of r = Returned 0
  /\ deleted_stacks (log_of r) = teardown_order
  /\ bucket_requests CF_LAMBDA_S3_BUCKET_NAME (log_of r)
     = [Listed (Returned (Sim.listing [CF_TEMPLATE_LAMBDA; CF_LAMBDA_SOURCE]));
        BatchDeleted [CF_TEMPLATE_LAMBDA; CF_LAMBDA_SOURCE]]
  /\ Sim.stacks (state_of r) = [].
Proof. vm_compute. repeat split. Qed.

(** The error reports of lines 119, 131, 142, ... add a [str] and an
    exception object: the sum raises and nothing is printed. *)
Lemma print_error_of_exception :
  forall (World : Type) (e : PyExc) (w : World),
    print_error (VExc e) w
    = (Raised (TypeError ("must be str, not " ++ exc_class e)%string), w, []).
Proof. intros World e w. reflexivity. Qed.

(** The only report that is printed is that of a name collision. *)
Lemma print_error_of_message :
  forall (World : Type) (message : string) (w : World),
    print_error (VStr message) w
    = (Returned tt, w, [Printed ("ERROR: " ++ message)%string]).
Proof. intros World message w. reflexivity. Qed.

(** What [create_s3_bucket] does when its first [create_stack] is rejected
    depends on the error code alone: -1 after the short report for
    [AlreadyExistsException], a [TypeError] for any other code. *)
Lemma first_creation_rejected :
  forall (World : Type)
         (provider : forall R : Type, Call R -> World -> Outcome R * World)
         (w w0 w1 : World) cf code message,
    provider Client (AwsClient "cloudformation") w = (Returned cf, w0) ->
    provider unit
             (CreateStack CF_STACKNAME_BOOTSTRAP_S3
                          (TemplateBody bootstrap_template_body) None) w0
    = (Raised (ClientError code message), w1) ->
    let r := create_s3_bucket provider w in
    if String.eqb code "AlreadyExistsException"
    then outcome_of r = Returned (-1)
         /\ In ("ERROR: " ++ message)%string (printed (log_of r))
    else outcome_of r = Raised (TypeError "must be str, not ClientError")
         /\ length (printed (log_of r)) = 1%nat.
Proof.
  intros World provider w w0 w1 cf code message Hclient Hcreate r; subst r.
  unfold create_s3_bucket. expose.
  rewrite Hclient. expose.
  change (TemplateBody _) with (TemplateBody bootstrap_template_body).
  rewrite Hcreate. expose.
  destruct (String.eqb code "AlreadyExistsException"); expose.
  - split; [reflexivity | right; left; reflexivity].
  - split; reflexivity.
Qed.

(** C1, at a teardown whose first stack deletion outlasts the 24 polls of its
    waiter: the deletion of [LambdaFunction] is the only one requested, but the
    teardown does not return -1; it ends in the [TypeError] raised by the
    error report of [delete_cf_stack] (line 257). *)
Theorem teardown_delete_timeout_run :
  let w := Sim.with_latency Sim.provisioned CF_STACKNAME_LAMBDA 25 in
  let r := delete_cloudformation_stacks Sim.provider w in
  deleted_stacks (log_of r) = [CF_STACKNAME_LAMBDA]
  /\ failure_of (last (log_of r) (Printed ""))
     = Some (WaiterError "Max attempts exceeded")
  /\ outcome_of r = Raised (TypeError "must be str, not WaiterError")
  /\ outcome_of r <> Returned (-1).
Proof. vm_compute. repeat split. discriminate. Qed.

(** C3, at a creation run whose bootstrap stack needs 13 polls against a
    budget of 12: the Deploy stage is not started and the exit status is 1,
    but [create_s3_bucket] does not return -1; it ends in the [TypeError]
    raised by its error report (line 131) and the process dies of it. *)
Theorem bootstrap_timeout_run :
  let w := Sim.with_latency Sim.fresh CF_STACKNAME_BOOTSTRAP_S3 13 in
  let r := create_s3_bucket Sim.provider w in
  let p := run_process Sim.provider false w in
  failure_of (last (log_of r) (Printed "")) = Some (WaiterError "Max attempts exceeded")
  /\ outcome_of r = Raised (TypeError "must be str, not WaiterError")
  /\ outcome_of r <> Returned (-1)
  /\ calls_of (snd p) = firstn 3 bootstrap_build_plan
  /\ fst (fst p) = Traceback (TypeError "must be str, not WaiterError")
  /\ exit_status (fst (fst p)) = 1.
Proof. vm_compute. repeat split. discriminate. Qed.

(** C4, at three failures of component operations: a rejected stack creation
    (the account's stack quota is used up), a creation wait that times out,
    and a deletion wait that times out.  In none of them is an error line
    printed, and in none of them does the enclosing function return -1: each
    ends in the [TypeError] of its own error report. *)
Theorem failures_are_not_reported :
  let rejected := create_lambda Sim.provider (Sim.with_stack_limit Sim.built 2) in
  let slow_create :=
    create_lambda Sim.provider (Sim.with_latency Sim.built CF_STACKNAME_LAMBDA 25) in
  let slow_delete :=
    delete_cf_stack Sim.provider CF_STACKNAME_LAMBDA_S3
                    (Some {| service_name := "cloudformation" |}) 5 12 true
                    (Sim.with_latency Sim.built CF_STACKNAME_LAMBDA_S3 13) in
  (outcome_of rejected = Raised (TypeError "must be str, not ClientError")
   /\ printed (log_of rejected)
      = ["Uploading test.zip to generic-lambda-functions-01234 bucket...";
         "Creating CloudFormation stack: LambdaFunction..."]%string)
  /\ (outcome_of slow_create = Raised (TypeError "must be str, not WaiterError")
      /\ printed (log_of slow_create)
         = ["Uploading test.zip to generic-lambda-functions-01234 bucket...";
            "Creating CloudFormation stack: LambdaFunction..."]%string)
  /\ (outcome_of slow_delete = Raised (TypeError "must be str, not WaiterError")
      /\ printed (log_of slow_delete)
         = ["Deleting CloudFormation stack: LambdaS3Bucket..."]%string).
Proof. vm_compute. repeat split. Qed.

(** C6, at two rejected creations of the bootstrap stack.  A name collision
    (code [AlreadyExistsException]) prints the provider's message and the
    stage returns -1.  Any other code, here [LimitExceededException], prints
    nothing and the stage does not return: the report of the provider's error
    raises a [TypeError] (line 119). *)
Theorem creation_rejected_runs :
  let collision := create_s3_bucket Sim.provider Sim.provisioned in
  let other := create_s3_bucket Sim.provider (Sim.with_stack_limit Sim.fresh 0) in
  (failure_of (last (removelast (log_of collision)) (Printed ""))
   = Some (ClientError "AlreadyExistsException"
                       "Stack [BootstrapS3Bucket] already exists")
   /\ outcome_of collision = Returned (-1)
   /\ last (printed (log_of collision)) ""%string
      = "ERROR: Stack [BootstrapS3Bucket] already exists"%string)
  /\ (failure_of (last (log_of other) (Printed "")) = Some Sim.limit_exceeded
      /\ outcome_of other = Raised (TypeError "must be str, not ClientError")
      /\ outcome_of other <> Returned (-1)
      /\ length (printed (log_of other)) = 1%nat).
Proof. vm_compute. repeat split. discriminate. Qed.

(** ** The general results at the reference provider *)

Lemma create_s3_bucket_sequence_witness :
  all_succeeded (log_of (create_s3_bucket Sim.provider Sim.fresh)) = true
  /\ calls_of (log_of (create_s3_bucket Sim.provider Sim.fresh)) = bootstrap_build_plan
  /\ outcome_of (create_s3_bucket Sim.provider Sim.fresh) = Returned 0.
Proof.
  assert (H0 : all_succeeded (log_of (create_s3_bucket Sim.provider Sim.fresh)) = true)
    by reflexivity.
  split; [exact H0 |].
  destruct (create_s3_bucket_sequence Sim.World Sim.provider Sim.fresh)
    as (_ & _ & _ & _ & Hrun).
  exact (Hrun H0).
Defined.

Lemma deploy_capability_and_budget_witness :
  (all_succeeded (log_of (create_lambda Sim.provider Sim.built)) = true
   /\ stack_creations (log_of (create_lambda Sim.provider Sim.built))
      = [(CF_STACKNAME_LAMBDA,
          TemplateURL (s3_url CF_LAMBDA_S3_BUCKET_NAME CF_TEMPLATE_LAMBDA),
          Some ["CAPABILITY_IAM"%string])]
   /\ wait_budgets (log_of (create_lambda Sim.provider Sim.built))
      = [(CF_STACKNAME_LAMBDA, 24)])
  /\ (all_succeeded (log_of (create_s3_bucket Sim.provider Sim.fresh)) = true
      /\ stack_creations (log_of (create_s3_bucket Sim.provider Sim.fresh))
         = [(CF_STACKNAME_BOOTSTRAP_S3, TemplateBody bootstrap_template_body, None);
            (CF_STACKNAME_LAMBDA_S3,
             TemplateURL (s3_url CF_BOOTSTRAP_S3_BUCKET_NAME CF_TEMPLATE_S3), None)]
      /\ wait_budgets (log_of (create_s3_bucket Sim.provider Sim.fresh))
         = [(CF_STACKNAME_BOOTSTRAP_S3, 12); (CF_STACKNAME_LAMBDA_S3, 12)]).
Proof.
  assert (H0 : all_succeeded (log_of (create_lambda Sim.provider Sim.built)) = true)
    by reflexivity.
  assert (H1 : all_succeeded (log_of (create_s3_bucket Sim.provider Sim.fresh)) = true)
    by reflexivity.
  destruct (deploy_capability_and_budget Sim.World Sim.provider Sim.built Sim.fresh)
    as (_ & _ & _ & _ & Hdeploy & _ & _ & _ & Hstorage).
  split.
  - split; [exact H0 | exact (Hdeploy H0)].
  - split; [exact H1 | exact (Hstorage H1)].
Defined.

Lemma buckets_empty_before_stack_deletion_witness :
  Sim.bucket_keys Sim.provisioned CF_LAMBDA_S3_BUCKET_NAME
  = [CF_TEMPLATE_LAMBDA; CF_LAMBDA_SOURCE]
  /\ map fst (deletion_states
                (log_of (delete_cloudformation_stacks Sim.provider Sim.provisioned)))
     = teardown_order
  /\ Forall (fun nw => Sim.bucket_keys (snd nw) CF_BOOTSTRAP_S3_BUCKET_NAME = []
                       /\ Sim.bucket_keys (snd nw) CF_LAMBDA_S3_BUCKET_NAME = [])
            (deletion_states
               (log_of (delete_cloudformation_stacks Sim.provider Sim.provisioned))).
Proof.
  split; [reflexivity |]. split; [reflexivity |].
  apply (buckets_empty_before_stack_deletion
           Sim.World Sim.provider Sim.bucket_keys
           SimFacts.listing_complete SimFacts.batch_delete_removes
           SimFacts.only_upload_adds Sim.provisioned).
Defined.

Lemma delete_absent_stack_succeeds_witness :
  Sim.stack_exists Sim.provisioned "NoSuchStack" = false
  /\ outcome_of (delete_cf_stack Sim.provider "NoSuchStack" None 5 12 true
                                 Sim.provisioned) = Returned 0.
Proof.
  split; [reflexivity |].
  apply (delete_absent_stack_succeeds
           Sim.World Sim.provider Sim.stack_exists
           SimFacts.client_is_local SimFacts.delete_absent_returns
           SimFacts.wait_absent_succeeds
           "NoSuchStack"%string None 5 12 true Sim.provisioned).
  reflexivity.
Defined.

Lemma buckets_emptied_as_listed_witness :
  emptied_as_listed
    (bucket_requests CF_BOOTSTRAP_S3_BUCKET_NAME
       (log_of (delete_cloudformation_stacks Sim.provider Sim.provisioned)))
    false
  /\ emptied_as_listed
       (bucket_requests CF_LAMBDA_S3_BUCKET_NAME
          (log_of (delete_cloudformation_stacks Sim.provider Sim.provisioned)))
       false.
Proof.
  apply (buckets_emptied_as_listed Sim.World Sim.provider SimFacts.listing_count
                                   Sim.provisioned).
Defined.

Lemma emptying_failure_propagates_witness :
  outcome_of (delete_cloudformation_stacks Sim.provider Sim.fresh)
  = Raised Sim.no_such_bucket
  /\ deleted_stacks (log_of (delete_cloudformation_stacks Sim.provider Sim.fresh)) = []
  /\ printed (log_of (delete_cloudformation_stacks Sim.provider Sim.fresh))
     = ["Emptying all buckets..."%string]
  /\ outcome_of (delete_cloudformation_stacks Sim.provider Sim.fresh) <> Returned (-1).
Proof.
  apply (emptying_failure_propagates
           Sim.World Sim.provider Sim.fresh
           (Called _ Sim.fresh (ListObjectsV2 CF_BOOTSTRAP_S3_BUCKET_NAME)
                   (Raised Sim.no_such_bucket))
           Sim.no_such_bucket).
  - right. right. left. reflexivity.
  - reflexivity.
  - reflexivity.
Defined.


(** ** Further properties of the script *)

Section Deletion.

Variable World : Type.
Variable provider : forall R : Type, Call R -> World -> Outcome R * World.

(** X2.  Listings and batch deletions aside, the requests of
    [delete_cloudformation_stacks] are an initial segment of: one S3 client,
    one CloudFormation client, then for [LambdaFunction], [LambdaS3Bucket]
    and [BootstrapS3Bucket] in this order a [delete_stack] followed by a wait
    for [stack_delete_complete] with delay 5 and 24, 12 and 12 attempts.
    The function returns 0 exactly when the whole sequence was issued and
    every request succeeded. *)
Theorem teardown_sequence :
  forall w : World,
    let r := delete_cloudformation_stacks provider w in
    prefix_of (control_calls (log_of r)) teardown_plan
    /\ (outcome_of r = Returned 0
        <-> control_calls (log_of r) = teardown_plan
            /\ all_succeeded (log_of r) = true).
Proof.
  intros w r; subst r; unfold prefix_of.
  run_all provider (delete_cloudformation_stacks provider w).
  all: leaf.
Qed.

(** X4.  [delete_cf_stack] returns -1 exactly when it was called with
    [verbose=False] and the wait raised [WaiterError]; with [verbose=False]
    it prints nothing; and it returns 0 exactly when every request
    succeeded. *)
Theorem delete_cf_stack_results :
  forall stack_name cf_client wait_delay wait_max_attempts verbose (w : World),
    let r := delete_cf_stack provider stack_name cf_client wait_delay
                             wait_max_attempts verbose w in
    (outcome_of r = Returned (-1)
     <-> verbose = false /\ existsb waiter_gave_up (log_of r) = true)
    /\ (verbose = false -> printed (log_of r) = [])
    /\ (outcome_of r = Returned 0 <-> all_succeeded (log_of r) = true).
Proof.
  intros stack_name cf d m verbose w r; subst r.
  destruct cf as [c |]; destruct verbose.
  - run_all provider (delete_cf_stack provider stack_name (Some c) d m true w).
    all: leaf.
  - run_all provider (delete_cf_stack provider stack_name (Some c) d m false w).
    all: leaf.
  - run_all provider (delete_cf_stack provider stack_name None d m true w).
    all: leaf.
  - run_all provider (delete_cf_stack provider stack_name None d m false w).
    all: leaf.
Qed.

(** X5.  In [delete_cf_stack] only a [WaiterError] of the wait is handled.
    Any other exception (of the client construction, of [delete_stack],
    which is outside the [try], or of the wait) is the outcome of the
    function, and no request follows the one that raised it: after a failed
    [delete_stack] no wait is issued. *)
Theorem delete_cf_stack_propagates :
  forall stack_name cf_client wait_delay wait_max_attempts verbose (w : World)
         (ev : Event World) (e : PyExc),
    let r := delete_cf_stack provider stack_name cf_client wait_delay
                             wait_max_attempts verbose w in
    In ev (log_of r) ->
    failure_of ev = Some e ->
    waiter_gave_up ev = false ->
    outcome_of r = Raised e /\ stops_at_failure (log_of r) = true.
Proof.
  intros stack_name cf d m verbose w ev e r; subst r.
  destruct cf as [c |]; destruct verbose.
  - run_all provider (delete_cf_stack provider stack_name (Some c) d m true w).
    all: locate_failure.
  - run_all provider (delete_cf_stack provider stack_name (Some c) d m false w).
    all: locate_failure.
  - run_all provider (delete_cf_stack provider stack_name None d m true w).
    all: locate_failure.
  - run_all provider (delete_cf_stack provider stack_name None d m false w).
    all: locate_failure.
Qed.

End Deletion.

Section Program.

Variable World : Type.
Variable provider : forall R : Type, Call R -> World -> Outcome R * World.

(** X7.  A creation run never asks for a stack or an object to be deleted,
    and a teardown run never asks for a stack to be created or a file to be
    uploaded, whatever the provider answers. *)
Theorem modes_do_not_mix :
  forall w : World,
    forallb (fun ev => negb (destroying ev)) (snd (run_process provider false w)) = true
    /\ forallb (fun ev => negb (provisioning ev)) (snd (run_process provider true w))
       = true.
Proof.
  intros w. split.
  - run_program provider (run_process provider false w).
    all: reflexivity.
  - run_program provider (run_process provider true w).
    all: reflexivity.
Qed.

(** X8.  The process exits with [exit(0)] only when every request it issued
    succeeded; a teardown has then deleted the three stacks in order, and a
    creation run has created the bootstrap, build and deploy stacks in this
    order. *)
Theorem exit_zero_means_complete :
  forall (delete_stacks : bool) (w : World),
    let p := run_process provider delete_stacks w in
    fst (fst p) = Exit 0 ->
    all_succeeded (snd p) = true
    /\ if delete_stacks
       then deleted_stacks (snd p) = teardown_order
       else map (fun c => fst (fst c)) (stack_creations (snd p))
            = [CF_STACKNAME_BOOTSTRAP_S3; CF_STACKNAME_LAMBDA_S3; CF_STACKNAME_LAMBDA].
Proof.
  intros delete_stacks w p; subst p. destruct delete_stacks.
  - run_program provider (run_process provider true w).
    all: intros H; first [ discriminate H | split; reflexivity ].
  - run_program provider (run_process provider false w).
    all: intros H; first [ discriminate H | split; reflexivity ].
Qed.

(** X9.  The stages of a creation run do not overlap.  Its requests are an
    initial segment of the storage stage's sequence; or that whole sequence
    followed by an initial segment of the Deploy stage's sequence; or both
    whole sequences followed by a non-empty initial segment of the queries of
    lines 325-370, the run having then requested three stack creations in
    all.  And the run goes on as long as nothing fails: when every request
    succeeded, the eight, the five and the queries were all issued, up to
    [get_stage], or up to [get_stages] when that returned no stage. *)
Theorem creation_stages_in_order :
  forall w : World,
    let l := snd (run_process provider false w) in
    (prefix_of (calls_of l) bootstrap_build_plan
     \/ (exists rest,
            calls_of l = bootstrap_build_plan ++ rest /\ prefix_of rest deploy_plan)
     \/ (exists api resource deployment stage rest,
            calls_of l = bootstrap_build_plan ++ deploy_plan ++ rest
            /\ rest <> []
            /\ prefix_of rest (inspection_plan api resource deployment stage)
            /\ length (stack_creations l) = 3%nat))
    /\ (all_succeeded l = true ->
        exists api resource deployment stage,
          calls_of l
          = bootstrap_build_plan ++ deploy_plan
            ++ inspection_plan api resource deployment stage
          \/ (In [] (stage_lists l)
              /\ calls_of l
                 = bootstrap_build_plan ++ deploy_plan
                   ++ removelast (inspection_plan api resource deployment stage))).
Proof.
  intros w l; subst l; unfold prefix_of. split.
  - run_program provider (run_process provider false w).
    all: first
           [ (left; eexists; reflexivity)
           | (right; left; eexists; split; [reflexivity | eexists; reflexivity])
           | (right; right; do 5 eexists;
              split; [reflexivity |];
              split; [discriminate |];
              split; [eexists; reflexivity | reflexivity]) ].
    Unshelve. all: exact EmptyString.
  - run_program provider (run_process provider false w).
    all: intros H; try discriminate H.
    all: do 4 eexists;
      first [ (left; reflexivity)
            | (right; split; [left; reflexivity | reflexivity]) ].
    Unshelve. all: exact EmptyString.
Qed.

End Program.

Section Stages.

Variable World : Type.
Variable provider : forall R : Type, Call R -> World -> Outcome R * World.



(** X11.  The [except] clauses of the two creation stages name one class
    each.  An exception of another class (a [ClientError] raised by a wait,
    anything but a [ClientError] raised by a client construction, a
    [create_stack] or an upload) is the outcome of the stage: no [ERROR] line
    is printed and -1 is not returned. *)
Theorem stages_propagate_unguarded :
  forall (w : World) (ev : Event World) (e : PyExc),
    (In ev (log_of (create_s3_bucket provider w)) ->
     failure_of ev = Some e ->
     guarded_in_creation ev = false ->
     outcome_of (create_s3_bucket provider w) = Raised e
     /\ existsb (String.prefix "ERROR") (printed (log_of (create_s3_bucket provider w)))
        = false)
    /\ (In ev (log_of (create_lambda provider w)) ->
        failure_of ev = Some e ->
        guarded_in_creation ev = false ->
        outcome_of (create_lambda provider w) = Raised e
        /\ existsb (String.prefix "ERROR") (printed (log_of (create_lambda provider w)))
           = false).
Proof.
  intros w ev e. split.
  - run_all provider (create_s3_bucket provider w).
    all: locate_failure.
  - run_all provider (create_lambda provider w).
    all: locate_failure.
Qed.

(** X12.  When [get_stages] returns no stage, [stages['item'][0]] raises
    [IndexError]: no [get_stage] request is issued and the creation run dies
    with exit status 1, although every request succeeded and the three stacks
    were created. *)
Theorem no_stage_is_an_index_error :
  forall w : World,
    let p := run_process provider false w in
    In [] (stage_lists (snd p)) ->
    fst (fst p) = Traceback (IndexError "list index out of range")
    /\ exit_status (fst (fst p)) = 1
    /\ all_succeeded (snd p) = true
    /\ map (fun c => fst (fst c)) (stack_creations (snd p))
       = [CF_STACKNAME_BOOTSTRAP_S3; CF_STACKNAME_LAMBDA_S3; CF_STACKNAME_LAMBDA]
    /\ exists api resource deployment,
         calls_of (snd p)
         = bootstrap_build_plan ++ deploy_plan
           ++ removelast (inspection_plan api resource deployment "").
Proof.
  intros w p; subst p.
  run_program provider (run_process provider false w).
  all: intros Hin;
    repeat (destruct Hin as [Hin | Hin]; [try discriminate |]); try contradiction.
  all: repeat split.
  all: do 3 eexists; reflexivity.
Qed.

(** X13.  When the queries of lines 325-370 run to their end, the REST API,
    the method, the resource and the deployment were looked up by their
    logical names, and the API Gateway queries were addressed with the
    physical identifiers returned for [TestRestApi], [UsersResource] and
    [TestRestApiDeployment] and with the name of the first stage listed;
    the identifier returned for [UsersGet] is used nowhere. *)
Theorem queries_use_returned_identifiers :
  forall w : World,
    let r := describe_created_resources provider w in
    outcome_of r = Returned tt ->
    exists api method resource deployment stage others,
      described (log_of r)
      = [ ("TestRestApi", api); ("UsersGet", method); ("UsersResource", resource);
          ("TestRestApiDeployment", deployment) ]%string
      /\ stage_lists (log_of r) = [stage :: others]
      /\ calls_of (log_of r) = inspection_plan api resource deployment stage.
Proof.
  intros w r; subst r.
  run_program provider (describe_created_resources provider w).
  all: intros H; try discriminate H.
  all: do 6 eexists; repeat split.
Qed.

End Stages.

(** ** The further properties at concrete accounts *)

Lemma create_lambda_sequence_witness :
  outcome_of (create_lambda Sim.provider Sim.built) = Returned 0
  /\ calls_of (log_of (create_lambda Sim.provider Sim.built)) = deploy_plan
  /\ all_succeeded (log_of (create_lambda Sim.provider Sim.built)) = true.
Proof.
  assert (H0 : outcome_of (create_lambda Sim.provider Sim.built) = Returned 0)
    by reflexivity.
  split; [exact H0 |].
  destruct (create_lambda_sequence Sim.World Sim.provider Sim.built) as (_ & _ & Hiff).
  exact (proj1 Hiff H0).
Defined.

Lemma teardown_sequence_witness :
  outcome_of (delete_cloudformation_stacks Sim.provider Sim.provisioned) = Returned 0
  /\ control_calls (log_of (delete_cloudformation_stacks Sim.provider Sim.provisioned))
     = teardown_plan
  /\ all_succeeded (log_of (delete_cloudformation_stacks Sim.provider Sim.provisioned))
     = true.
Proof.
  assert (H0 : outcome_of (delete_cloudformation_stacks Sim.provider Sim.provisioned)
               = Returned 0) by reflexivity.
  split; [exact H0 |].
  destruct (teardown_sequence Sim.World Sim.provider Sim.provisioned) as (_ & Hiff).
  exact (proj1 Hiff H0).
Defined.

(** A quiet deletion of the build stack that needs 13 polls. *)
Lemma delete_cf_stack_results_witness :
  let r := delete_cf_stack Sim.provider CF_STACKNAME_LAMBDA_S3
                           (Some {| service_name := "cloudformation" |}) 5 12 false
                           (Sim.with_latency Sim.built CF_STACKNAME_LAMBDA_S3 13) in
  existsb waiter_gave_up (log_of r) = true
  /\ outcome_of r = Returned (-1)
  /\ printed (log_of r) = [].
Proof.
  intros r.
  assert (Hwait : existsb waiter_gave_up (log_of r) = true) by reflexivity.
  destruct (delete_cf_stack_results
              Sim.World Sim.provider CF_STACKNAME_LAMBDA_S3
              (Some {| service_name := "cloudformation" |}) 5 12 false
              (Sim.with_latency Sim.built CF_STACKNAME_LAMBDA_S3 13))
    as (Hminus & Hquiet & _).
  split; [exact Hwait |]. split.
  - exact (proj2 Hminus (conj eq_refl Hwait)).
  - exact (Hquiet eq_refl).
Defined.

(** A caller who may not delete stacks. *)
Lemma delete_cf_stack_propagates_witness :
  let w := Restricted.without "cloudformation:DeleteStack" Sim.provisioned in
  let r := delete_cf_stack Restricted.provider CF_STACKNAME_LAMBDA None 5 24 true w in
  outcome_of r = Raised (Restricted.access_denied (DeleteStack CF_STACKNAME_LAMBDA))
  /\ stops_at_failure (log_of r) = true.
Proof.
  intros w r.
  apply (delete_cf_stack_propagates
           Restricted.World Restricted.provider CF_STACKNAME_LAMBDA None 5 24 true w
           (Called unit w (DeleteStack CF_STACKNAME_LAMBDA)
                   (Raised (Restricted.access_denied (DeleteStack CF_STACKNAME_LAMBDA))))).
  - right. right. left. reflexivity.
  - reflexivity.
  - reflexivity.
Defined.

(** A creation run against an account that is already provisioned. *)
Lemma failed_build_stops_the_run_witness :
  outcome_of (create_s3_bucket Sim.provider Sim.provisioned) <> Returned 0
  /\ calls_of (snd (run_process Sim.provider false Sim.provisioned))
     = calls_of (log_of (create_s3_bucket Sim.provider Sim.provisioned))
  /\ exit_status (fst (fst (run_process Sim.provider false Sim.provisioned))) <> 0.
Proof.
  assert (H0 : outcome_of (create_s3_bucket Sim.provider Sim.provisioned) <> Returned 0)
    by (vm_compute; discriminate).
  split; [exact H0 |].
  exact (failed_build_stops_the_run Sim.World Sim.provider Sim.provisioned H0).
Defined.

Lemma exit_zero_means_complete_witness :
  fst (fst (run_process Sim.provider true Sim.provisioned)) = Exit 0
  /\ all_succeeded (snd (run_process Sim.provider true Sim.provisioned)) = true
  /\ deleted_stacks (snd (run_process Sim.provider true Sim.provisioned))
     = teardown_order.
Proof.
  assert (H0 : fst (fst (run_process Sim.provider true Sim.provisioned)) = Exit 0)
    by reflexivity.
  split; [exact H0 |].
  exact (exit_zero_means_complete Sim.World Sim.provider true Sim.provisioned H0).
Defined.


(** A caller who may not poll stacks: the first wait of the storage stage is
    answered with a [ClientError], which its [except WaiterError] lets
    through.  And a Deploy stage started on an empty account: the upload
    fails with an exception that is not a [ClientError]. *)
Lemma stages_propagate_unguarded_witness :
  (let w := Restricted.without "cloudformation:DescribeStacks" Sim.fresh in
   outcome_of (create_s3_bucket Restricted.provider w)
   = Raised (Restricted.access_denied
               (WaiterWait "stack_create_complete" CF_STACKNAME_BOOTSTRAP_S3
                           storage_budget)))
  /\ outcome_of (create_lambda Sim.provider Sim.fresh)
     = Raised (OtherException "S3UploadFailedError" "Failed to upload: NoSuchBucket").
Proof.
  split.
  - intros w.
    pose (w1 := {| Restricted.account :=
                     snd (Sim.provider unit
                            (CreateStack CF_STACKNAME_BOOTSTRAP_S3
                                         (TemplateBody bootstrap_template_body) None)
                            Sim.fresh);
                   Restricted.denied := ["cloudformation:DescribeStacks"%string] |}).
    apply (proj1 (stages_propagate_unguarded
                    Restricted.World Restricted.provider w
                    (Called unit w1
                            (WaiterWait "stack_create_complete" CF_STACKNAME_BOOTSTRAP_S3
                                        storage_budget)
                            (Raised (Restricted.access_denied
                                       (WaiterWait "stack_create_complete"
                                                   CF_STACKNAME_BOOTSTRAP_S3
                                                   storage_budget))))
                    _)).
    + vm_compute. right. right. right. left. reflexivity.
    + reflexivity.
    + reflexivity.
  - apply (proj2 (stages_propagate_unguarded
                    Sim.World Sim.provider Sim.fresh
                    (Called unit Sim.fresh
                            (UploadFile CF_LAMBDA_SOURCE CF_LAMBDA_S3_BUCKET_NAME
                                        CF_LAMBDA_SOURCE)
                            (Raised (OtherException "S3UploadFailedError"
                                                    "Failed to upload: NoSuchBucket")))
                    _)).
    + right. right. left. reflexivity.
    + reflexivity.
    + reflexivity.
Defined.

Lemma no_stage_is_an_index_error_witness :
  In [] (stage_lists (snd (run_process stageless_provider false Sim.fresh)))
  /\ fst (fst (run_process stageless_provider false Sim.fresh))
     = Traceback (IndexError "list index out of range")
  /\ exit_status (fst (fst (run_process stageless_provider false Sim.fresh))) = 1.
Proof.
  assert (H0 : In [] (stage_lists (snd (run_process stageless_provider false Sim.fresh))))
    by (left; reflexivity).
  split; [exact H0 |].
  destruct (no_stage_is_an_index_error Sim.World stageless_provider Sim.fresh H0)
    as (Hend & Hstatus & _).
  split; [exact Hend | exact Hstatus].
Defined.

Lemma queries_use_returned_identifiers_witness :
  outcome_of (describe_created_resources Sim.provider Sim.provisioned) = Returned tt
  /\ exists api method resource deployment stage others,
       described (log_of (describe_created_resources Sim.provider Sim.provisioned))
       = [ ("TestRestApi", api); ("UsersGet", method); ("UsersResource", resource);
           ("TestRestApiDeployment", deployment) ]%string
       /\ stage_lists (log_of (describe_created_resources Sim.provider Sim.provisioned))
          = [stage :: others]
       /\ calls_of (log_of (describe_created_resources Sim.provider Sim.provisioned))
          = inspection_plan api resource deployment stage.
Proof.
  assert (H0 : outcome_of (describe_created_resources Sim.provider Sim.provisioned)
               = Returned tt) by reflexivity.
  split; [exact H0 |].
  exact (queries_use_returned_identifiers Sim.World Sim.provider Sim.provisioned H0).
Defined.


Lemma creation_stages_in_order_witness :
  all_succeeded (snd (run_process Sim.provider false Sim.fresh)) = true
  /\ exists api resource deployment stage,
       calls_of (snd (run_process Sim.provider false Sim.fresh))
       = bootstrap_build_plan ++ deploy_plan
         ++ inspection_plan api resource deployment stage
       \/ (In [] (stage_lists (snd (run_process Sim.provider false Sim.fresh)))
           /\ calls_of (snd (run_process Sim.provider false Sim.fresh))
              = bootstrap_build_plan ++ deploy_plan
                ++ removelast (inspection_plan api resource deployment stage)).
Proof.
  assert (H0 : all_succeeded (snd (run_process Sim.provider false Sim.fresh)) = true)
    by reflexivity.
  split; [exact H0 |].
  exact (proj2 (creation_stages_in_order Sim.World Sim.provider Sim.fresh) H0).
Defined.

(** ** A teardown against paged listings *)

(** C2, at a teardown of an account whose build bucket holds 1001 objects,
    against a store that lists at most 1000 keys per response.  The emptying
    comes before the stack deletions, but it is one listing and one batch
    deletion of the 1000 keys listed (lines 279-282): when the deletion of
    [LambdaFunction] and then of [LambdaS3Bucket] is requested, the build
    bucket still holds [object-1000]. *)
Theorem teardown_truncated_listing_run :
  let r := delete_cloudformation_stacks Paged.provider Paged.crowded in
  length (Sim.bucket_keys Paged.crowded CF_LAMBDA_S3_BUCKET_NAME) = 1001%nat
  /\ emptying_precedes_deletion (log_of r) = true
  /\ map (fun q => match q with
                   | Listed (Returned o) => KeyCount o
                   | Listed (Raised _) => -1
                   | BatchDeleted keys => Z.of_nat (length keys)
                   end)
         (bucket_requests CF_LAMBDA_S3_BUCKET_NAME (log_of r))
     = [1000; 1000]
  /\ map (fun nw => (fst nw, Sim.bucket_keys (snd nw) CF_LAMBDA_S3_BUCKET_NAME))
         (deletion_states (log_of r))
     = [(CF_STACKNAME_LAMBDA, ["object-1000"%string]);
        (CF_STACKNAME_LAMBDA_S3, ["object-1000"%string])].
Proof. vm_compute. repeat split. Qed.
